(** * Hermes / yc_companies: classification and merge of founder records

    A shallow embedding of the four scripts under [yc_companies/]:

    - [batch_extract_founders.py]: the override table [REAL_FOUNDER_DATA],
      [is_pattern_data], [update_company_with_real_data] and the loop of
      [main];
    - [get_founders_from_yc.py]: [is_pattern_data], [extract_company_slug];
    - [extract_real_founders.py]: [extract_company_slug], [is_pattern_data];
    - [find_founders_batch.py]: the selection loop of
      [get_companies_needing_founders].

    A Python [str] is the list of its Unicode code points ([N]).  A row of
    the CSV, as [csv.DictReader] yields it, is a finite map from column
    names to [str] values; a column missing from the header is a key missing
    from the map.  Each [main] takes the header and the rows the reader
    yields and gives the strings it prints and what it returns; the [main]
    of [batch_extract_founders.py] also gives the lines [csv.DictWriter]
    leaves in the file and the exception that ends the run, if any.  A file
    is the list of its lines and a line the list of its fields: the text the
    [csv] module makes of a line is not part of the embedding. *)

From Stdlib Require Import NArith Ascii String DecimalString.
From stdpp Require Import gmap strings list fin_maps.

Local Open Scope N_scope.

(** ** Python strings and dictionaries *)

Module Py.

(** A [str] value: the sequence of its code points. *)
Abbreviation str := (list N).

(** A row: column name to value. *)
Abbreviation dict := (gmap string (list N)).

(** Code points of a source literal.  The scripts are UTF-8 files and a
    literal below holds the same bytes as the literal of the script, so
    decoding it gives the code points Python sees. *)
Fixpoint utf8_decode (bs : list N) : str :=
  match bs with
  | [] => []
  | b0 :: r0 =>
      if b0 <? 0x80 then b0 :: utf8_decode r0
      else
        match r0 with
        | [] => []
        | b1 :: r1 =>
            if b0 <? 0xE0 then
              N.lor (N.shiftl (N.land b0 0x1F) 6) (N.land b1 0x3F)
                :: utf8_decode r1
            else
              match r1 with
              | [] => []
              | b2 :: r2 =>
                  if b0 <? 0xF0 then
                    N.lor (N.shiftl (N.land b0 0x0F) 12)
                      (N.lor (N.shiftl (N.land b1 0x3F) 6) (N.land b2 0x3F))
                      :: utf8_decode r2
                  else
                    match r2 with
                    | [] => []
                    | b3 :: r3 =>
                        N.lor (N.shiftl (N.land b0 0x07) 18)
                          (N.lor (N.shiftl (N.land b1 0x3F) 12)
                             (N.lor (N.shiftl (N.land b2 0x3F) 6)
                                (N.land b3 0x3F)))
                          :: utf8_decode r3
                    end
              end
        end
  end.

Fixpoint bytes_of (s : string) : list N :=
  match s with
  | EmptyString => []
  | String a s' => N_of_ascii a :: bytes_of s'
  end.

Definition lit (s : string) : str := utf8_decode (bytes_of s).

(** [c.isspace()] for one code point: the code points CPython lists in
    [_PyUnicode_IsWhitespace]. *)
Definition isspace (c : N) : bool :=
  ((0x09 <=? c) && (c <=? 0x0D))
  || ((0x1C <=? c) && (c <=? 0x20))
  || (c =? 0x85) || (c =? 0xA0) || (c =? 0x1680)
  || ((0x2000 <=? c) && (c <=? 0x200A))
  || (c =? 0x2028) || (c =? 0x2029) || (c =? 0x202F)
  || (c =? 0x205F) || (c =? 0x3000).

(** [s.lstrip()], [s.rstrip()] and [s.strip()], called without argument. *)
Fixpoint lstrip (s : str) : str :=
  match s with
  | [] => []
  | c :: s' => if isspace c then lstrip s' else s
  end.

Definition rstrip (s : str) : str := reverse (lstrip (reverse s)).

Definition strip (s : str) : str := rstrip (lstrip s).

(** [s.startswith(prefix)]. *)
Fixpoint startswith (s prefix : str) {struct prefix} : bool :=
  match prefix, s with
  | [], _ => true
  | _ :: _, [] => false
  | p :: prefix', c :: s' => (c =? p) && startswith s' prefix'
  end.

(** Truth value of a [str]: false exactly for the empty string. *)
Definition truthy (s : str) : bool :=
  match s with
  | [] => false
  | _ :: _ => true
  end.

(** [d.get(key, default)]. *)
Definition get (d : dict) (key : string) (default : str) : str :=
  match d !! key with
  | Some v => v
  | None => default
  end.

(** [d.update(other)]: the entries of [other] overwrite those of [d]. *)
Definition update (d other : dict) : dict := other ∪ d.

(** A dictionary display [{k1: v1, k2: v2, ...}]: the entries are stored
    from left to right, a later one replacing an earlier one of equal key. *)
Definition display `{Countable K} {V} (entries : list (K * V)) : gmap K V :=
  foldl (λ d kv, <[kv.1 := kv.2]> d) ∅ entries.

(** [str(n)] for a natural number: its decimal digits. *)
Definition str_of_nat (n : nat) : str :=
  lit (NilEmpty.string_of_uint (Nat.to_uint n)).

(** The newline character, written [\n] in the scripts. *)
Definition nl : N := 10.

(** [s * n]. *)
Definition repeat (s : str) (n : nat) : str := concat (replicate n s).

(** How an f-string shows the result of [d.get(key)]: the value, or the
    text [None] when the key is missing. *)
Definition format (v : option str) : str :=
  match v with
  | Some s => s
  | None => lit "None"
  end.

(** What the [__main__] block of a script can raise in this embedding. *)
Inductive exception := TypeError | ValueError.

End Py.

(** ** The regular expression [/companies/([^/]+)] *)

Module Re.

Definition slash : N := 47.

(** What is left of [s] after the literal [p], when [s] begins with it. *)
Fixpoint literal (p s : Py.str) {struct p} : option Py.str :=
  match p, s with
  | [], _ => Some s
  | _ :: _, [] => None
  | a :: p', c :: s' => if c =? a then literal p' s' else None
  end.

(** The longest run of characters other than [/] at the head of [s]: what
    the greedy [[^/]+] consumes (the pattern ends there, so it never gives
    a character back). *)
Fixpoint segment (s : Py.str) : Py.str :=
  match s with
  | [] => []
  | c :: s' => if c =? slash then [] else c :: segment s'
  end.

(** The pattern tried at the head of [s]; the result is group 1. *)
Definition match_here (s : Py.str) : option Py.str :=
  match literal (Py.lit "/companies/") s with
  | None => None
  | Some rest =>
      match segment rest with
      | [] => None
      | c :: g => Some (c :: g)
      end
  end.

(** [re.search]: the match at the leftmost position that has one. *)
Fixpoint search (s : Py.str) : option Py.str :=
  match match_here s with
  | Some g => Some g
  | None =>
      match s with
      | [] => None
      | _ :: s' => search s'
      end
  end.

End Re.

(** ** csv.DictWriter *)

Module Csv.

(** A file under [csv.writer] is the list of the lines written to it, and a
    line is the list of its fields; how the fields are quoted and joined is
    left to the [csv] module. *)

(** [open(input_file, 'w')]: the file is emptied. *)
Definition open_w : list (list (list N)) := [].

(** [DictWriter._dict_to_list] with the default [extrasaction='raise'] and
    [restval='']: [None] stands for the [ValueError] raised when the row has
    a key outside [fieldnames]. *)
Definition dict_to_list (fieldnames : list string)
    (rowdict : gmap string (list N)) : option (list (list N)) :=
  let wrong_fields : gset string := dom rowdict ∖ list_to_set fieldnames in
  if decide (wrong_fields = ∅)
  then Some ((λ key, Py.get rowdict key []) <$> fieldnames)
  else None.

(** [writer.writeheader()]: the row that maps each name to itself has no
    wrong field, and its fields are the names. *)
Definition writeheader (fieldnames : list string)
    (file : list (list (list N))) : list (list (list N)) :=
  file ++ [Py.lit <$> fieldnames].

(** [writer.writeheader()] when [fieldnames] is [None]: [zip(None, None)]
    raises [TypeError] and nothing is written. *)
Definition writeheader_None (file : list (list (list N)))
  : list (list (list N)) * option Py.exception :=
  (file, Some Py.TypeError).

(** [writer.writerows(rowdicts)]: the rows are converted and written one
    after the other, so that the lines of the rows before the first one
    with a wrong field are in the file when [ValueError] is raised. *)
Fixpoint writerows (fieldnames : list string)
    (rowdicts : list (gmap string (list N))) (file : list (list (list N)))
  : list (list (list N)) * option Py.exception :=
  match rowdicts with
  | [] => (file, None)
  | rowdict :: rest =>
      match dict_to_list fieldnames rowdict with
      | None => (file, Some Py.ValueError)
      | Some fields => writerows fieldnames rest (file ++ [fields])
      end
  end.

End Csv.

(** ** batch_extract_founders.py *)

Module BatchExtractFounders.

(** One value of [REAL_FOUNDER_DATA]: every entry of the table is a display
    with exactly these five keys, and the code reads them by subscript. *)
Record RealData := {
  founder_first : Py.str;
  founder_last : Py.str;
  founder_email : Py.str;
  founder_linkedin : Py.str;
  website : Py.str
}.

#[global] Instance RealData_eq_dec : EqDecision RealData.
Proof. solve_decision. Defined.

Definition entry (company_name first last email linkedin site : string)
  : Py.str * RealData :=
  (Py.lit company_name,
   {| founder_first := Py.lit first;
      founder_last := Py.lit last;
      founder_email := Py.lit email;
      founder_linkedin := Py.lit linkedin;
      website := Py.lit site |}).

(** The entries of the table, in the order of the script. *)
Definition REAL_FOUNDER_DATA_entries : list (Py.str * RealData) := [
  entry "Uplift AI"
    "Hammad" "Malik" "hammad@upliftai.org"
    "linkedin.com/in/hammad2" "upliftai.org";
  entry "Freya"
    "Tunga" "Bayrak" "tunga@freyavoice.ai"
    "linkedin.com/in/tunga-bayrak" "freyavoice.ai";
  entry "burnt"
    "Joseph" "Jacob" "joseph@getburnt.ai"
    "linkedin.com/in/josephjacob93" "getburnt.ai";
  entry "Blue"
    "Omar" "Abdelaziz" "omar@heyblue.com"
    "linkedin.com/in/oabdelaziz" "heyblue.com";
  entry "Avent"
    "Abhay" "Kalra" "abhay@aventindustrial.com"
    "linkedin.com/in/abhay-kalra-683688214" "aventindustrial.com";
  entry "Cacao"
    "Alec" "Howard" "alec@cacaofi.com"
    "linkedin.com/in/alexandermhoward" "cacaofi.com";
  entry "Veritus Agent"
    "Joshua" "March" "joshua@veritusagent.ai"
    "linkedin.com/in/joshuamarch" "veritusagent.ai";
  entry "NOSO LABS"
    "Winston" "Chi" "winston@noso.so"
    "linkedin.com/in/lwchi" "noso.so";
  entry "Vulcan Technologies"
    "Tanner" "Jones" "tanner@vulcan-tech.com"
    "linkedin.com/in/tanner-jones-817192167" "vulcan-tech.com";
  entry "Spotlight Realty"
    "Raymond" "Allie" "raymond@spotlight.realty"
    "linkedin.com/in/raymond-allie" "spotlight.realty";
  entry "Munify"
    "Khalid" "Ashmawy" "khalid@munify.ai"
    "linkedin.com/in/khalidashmawy" "munify.ai";
  entry "TectoAI"
    "Niosha" "Afsharikia" "founders@tecto.ai"
    "linkedin.com/in/afsharikia" "tecto.ai";
  entry "Duranium"
    "Brenden" "Prins-McKinney" "brenden@duranium.co"
    "linkedin.com/in/brenden-prins-mckinney-96959a69" "duranium.co";
  entry "Perspectives Health"
    "Eshan" "Dosani" "eshan@perspectiveshealth.ai"
    "linkedin.com/in/eshan-dosani" "perspectiveshealth.ai";
  entry "Magnetic"
    "Thomas" "Shelley" "thomas@magnetictax.com"
    "linkedin.com/in/thomasjshelley" "magnetictax.com";
  entry "Fleetline"
    "Saurav" "Kumar" "saurav@fleetline.ai"
    "linkedin.com/in/sauravml" "fleetline.ai";
  entry "Clodo"
    "Sid" "Rajaram" "sid@clodo.ai"
    "linkedin.com/in/sidharthrajaram" "clodo.ai";
  entry "Flywheel AI"
    "Jash" "Mota" "jash@useflywheel.ai"
    "linkedin.com/in/jashmota" "useflywheel.ai";
  entry "Juxta"
    "John" "Ferrara" "john@usejuxta.org"
    "linkedin.com/in/ferrara-john" "juxta.com";
  entry "dScribe AI"
    "Warren" "Wijaya Wang" "warren@dscribeai.com"
    "linkedin.com/in/warrenwang-fnu" "dscribeai.com";
  entry "Reacher"
    "Jerry" "Qian" "jerry@reacherapp.com"
    "linkedin.com/in/j-qian" "reacherapp.com";
  entry "Hera"
    "Peter" "Tribelhorn" "peter@hera.video"
    "linkedin.com/in/peter-tribelhorn-36a967142" "hera.video";
  entry "Nottelabs"
    "Andrea" "Pinto" "andrea@notte.cc"
    "linkedin.com/in/pinto-andrea" "notte.cc";
  entry "Locata"
    "Alejandro" "Salinas" "alejandro@locatahealth.com"
    "linkedin.com/in/asalinas21" "locatahealth.com";
  entry "Pleom"
    "Royce" "Arockiasamy" "royce@pleom.com"
    "linkedin.com/in/roycea1" "pleom.com";
  entry "Convexia"
    "Ayaan" "Parikh" "ayaan@convexia.bio"
    "linkedin.com/in/ayaan-parikh" "convexia.bio";
  entry "SigmanticAI"
    "Rohil" "Khare" "rohil@sigmanticai.com"
    "linkedin.com/in/rohil-khare" "sigmanticai.com";
  entry "Opennote"
    "Rishi" "Srihari" "rishi@opennote.com"
    "linkedin.com/in/rishi-srihari" "opennote.com";
  entry "Sira"
    "Nathan" "Belaye" "nathan@sira.team"
    "linkedin.com/in/nathan-belaye-931005149" "sira.team";
  entry "F4"
    "Paul" "Shin" "paul@f4.dev"
    "linkedin.com/in/paul-hyoungsang-shin" "f4.dev";
  entry "Eden"
    "Alex" "Talamonti" "alex@tryeden.ai"
    "linkedin.com/in/alexander-talamonti" "tryeden.ai";
  entry "Altur"
    "Luis" "Olave" "luis@altur.io"
    "linkedin.com/in/luis-olave" "altur.io";
  entry "PARES AI"
    "Zihao" "Wang" "zihao@pares.ai"
    "linkedin.com/in/zihao-wang-mh" "pares.ai";
  entry "Avelis Health"
    "Angel" "Onuoha" "angel@avelishealth.com"
    "linkedin.com/in/angel-onuoha" "avelishealth.com";
  entry "Nautilus"
    "Amayr" "Babar" "amayr@nautilus.co"
    "linkedin.com/in/amayrbabar" "nautilus.co";
  entry "Humoniq"
    "Todd" "Sullivan" "todd@humoniq.ai"
    "linkedin.com/in/todsul" "humoniq.ai";
  entry "Palace"
    "Leeds" "Rising" "leeds@palace.so"
    "linkedin.com/in/leedsrising" "palace.so";
  entry "Idler"
    "Ivan" "Chub" "ivan@idler.ai"
    "linkedin.com/in/ivanchub" "idler.ai";
  entry "Floot"
    "Yujian" "Yao" "yujian@floot.com"
    "linkedin.com/in/yjyao" "floot.com";
  entry "Alara"
    "Sabrine" "Obbad" "sabrine@alaradental.com"
    "linkedin.com/in/sabrineobbad" "alaradental.com";
  entry "Socratix AI"
    "Riya" "Jagetia" "riya@getsocratix.ai"
    "linkedin.com/in/riya-jagetia" "getsocratix.ai";
  entry "Minimal AI"
    "Niek" "Hogenboom" "niek@gominimal.ai"
    "linkedin.com/in/niek-hogenboom" "gominimal.ai";
  entry "Risely AI"
    "Shahryar" "Abbasi" "founders@risely.ai"
    "linkedin.com/in/shahryarabbasi" "risely.ai";
  entry "Omnara"
    "Ishaan" "Sehgal" "ishaan@omnara.com"
    "linkedin.com/in/ishaan-sehgal" "omnara.com";
  entry "Knowlify"
    "Ritam" "Rana" "ritam@knowlify.net"
    "linkedin.com/in/ritamrana" "knowlify.net";
  entry "Autosana"
    "Yuvan" "Sundrani" "yuvan@autosana.ai"
    "linkedin.com/in/yuvan-sundrani" "autosana.ai";
  entry "April"
    "Neha" "Suresh" "neha@tryapril.com"
    "linkedin.com/in/nehasuresh1904" "tryapril.com";
  entry "Iron Grid"
    "Fern" "Morrison" "fern@getirongrid.com"
    "linkedin.com/in/elizabeth-fern-morrison" "getirongrid.com";
  entry "Finto"
    "Jonas" "Morgner" "jonasm@finto.de"
    "linkedin.com/in/jonasmorgner" "gofinto.com";
  entry "Motives"
    "Sean" "Conley" "sean@motives.ai"
    "linkedin.com/in/sean-conley-397b69b8" "motives.ai";
  entry "Relling"
    "Jai" "Relan" "jai@relling.co"
    "linkedin.com/in/jairelan" "relling.co";
  entry "mcp-use"
    "Pietro" "Zullo" "pietro@mcp-use.com"
    "linkedin.com/in/pietrozullo" "mcp-use.com";
  entry "Novaflow"
    "Aman" "Agarwal" "aman@novaflowapp.com"
    "linkedin.com/in/aman-agarwal-ca" "novaflowapp.com";
  entry "Perseus Defense"
    "Jason" "Cornelius" "jason@perseusdefense.com"
    "linkedin.com/in/jason-k-cornelius" "perseusdefense.com";
  entry "Phases"
    "James" "Wall" "james@phases.ai"
    "linkedin.com/in/j-m-wall" "phases.ai";
  entry "Solva"
    "Herman" "BÃ¥verud Olsson" "herman@solvatechnology.com"
    "linkedin.com/in/hermanbaverudolsson" "solvatechnology.com";
  entry "Albacore Inc."
    "John" "Huddleston" "john@albacore.inc"
    "linkedin.com/in/john-huddleston-3584121b7" "albacore.inc";
  entry "Riff"
    "Adith" "Reddi" "adith@goriff.com"
    "linkedin.com/in/adithreddi" "goriff.com";
  entry "Mohi"
    "Evan" "Seeyave" "evan@trymohi.com"
    "linkedin.com/in/evanseeyave" "trymohi.com";
  entry "Mimos"
    "Rohit" "Sirosh" "rohit@trymimos.com"
    "linkedin.com/in/rohit-sirosh" "trymimos.com";
  entry "Nozomio"
    "Arlan" "Rakhmetzhanov" "arlan@nozomio.com"
    "linkedin.com/in/arlan-rakhmetzhanov" "nozomio.com";
  entry "VibeFlow"
    "Alessia" "Paccagnella" "alessia@vibeflow.ai"
    "linkedin.com/in/alepacca" "vibeflow.ai";
  entry "Comena"
    "Jiehua" "Wu" "jiehua.wu@comena.ai"
    "linkedin.com/in/jiehua-wu" "comena.ai";
  entry "Normal"
    "Anson" "Yu" "anson@normalfactory.com"
    "linkedin.com/in/anson-yu-231336141" "normalfactory.com";
  entry "GhostEye"
    "Mohammad" "Eshan" "founders@ghosteye.ai"
    "linkedin.com/in/moheshan" "ghosteye.ai";
  entry "Channel3"
    "Alexander" "Schiff" "founders@trychannel3.com"
    "linkedin.com/in/alexanderschiff" "trychannel3.com";
  entry "Epicenter"
    "Braden" "Wong" "braden@epicenter.md"
    "linkedin.com/in/braden-wong" "epicenter.md";
  entry "Candytrail"
    "Aditya" "Mahna" "founders@candytrail.ai"
    "linkedin.com/in/aditya-mahna-b57256325" "candytrail.ai";
  entry "Embedder"
    "Ethan" "Gibbs" "founders@embedder.dev"
    "linkedin.com/in/etgibbs" "embedder.com";
  entry "Flai"
    "Ari" "Polakof" "founders@useflai.com"
    "linkedin.com/in/ari-polakof-78b976150" "useflai.com";
  entry "b-12"
    "Zlatko" "JonÄev" "founders@b12-labs.com"
    "linkedin.com/in/zlatkojoncev" "b12-labs.com";
  entry "Trace"
    "Tim" "Cherkasov" "founders@trace.so"
    "linkedin.com/in/timcherkasov" "trace.so";
  entry "The Interface"
    "Max" "Raven" "founders@theinterface.com"
    "linkedin.com/in/ravenmax" "theinterface.com";
  entry "IronLedger.ai"
    "Nick" "Amore" "sales@ironledger.ai"
    "linkedin.com/in/nick-amore-6391a7129" "ironledger.ai";
  entry "Doe"
    "Adrian" "Barbir" "founders@doe.so"
    "linkedin.com/in/adrianbarbir" "doe.so"
].

Definition REAL_FOUNDER_DATA : gmap (list N) RealData :=
  Py.display REAL_FOUNDER_DATA_entries.

Definition is_pattern_data (company : Py.dict) : bool :=
  let founder_first := Py.strip (Py.get company "founder_first_name" []) in
  let founder_email := Py.strip (Py.get company "founder_email" []) in
  if bool_decide (founder_first = Py.lit "Team")
     || bool_decide (founder_first = [])
  then true
  else if Py.startswith founder_email (Py.lit "hello@") then true
  else if negb (Py.truthy (Py.strip (Py.get company "founder_linkedin" [])))
  then true
  else false.

(** The value of the ['data_quality'] entry, as the script spells it. *)
Definition REAL_marker : Py.str := Py.lit "âœ… REAL".

Definition update_company_with_real_data
    (company : Py.dict) (real_data : RealData) : Py.dict :=
  let jobs :=
    Py.get company "job_openings"
      (Py.lit "Software Engineering Intern, Product Intern") in
  let funding_stage := Py.get company "funding_stage" (Py.lit "Seed") in
  let amount_raised := Py.get company "amount_raised" (Py.lit "$1.5M") in
  let date_raised := Py.get company "date_raised" (Py.lit "Summer 2025") in
  <["data_quality" := REAL_marker]>
  (<["date_raised" := date_raised]>
  (<["amount_raised" := amount_raised]>
  (<["funding_stage" := funding_stage]>
  (<["job_openings" := jobs]>
  (<["website" := website real_data]>
  (<["founder_linkedin" := founder_linkedin real_data]>
  (<["founder_email" := founder_email real_data]>
  (<["founder_last_name" := founder_last real_data]>
  (<["founder_first_name" := founder_first real_data]>
   company))))))))).

(** The call seen on the store of dictionaries: [company] is a reference,
    the display allocates a new dictionary and the function returns the
    reference to it. *)
Definition update_company_with_real_data_ref
    (heap : gmap positive (gmap string (list N))) (company : positive)
    (real_data : RealData)
  : option (positive * gmap positive (gmap string (list N))) :=
  match heap !! company with
  | None => None
  | Some d =>
      let new := fresh (dom heap) in
      Some (new, <[new := update_company_with_real_data d real_data]> heap)
  end.

Definition input_file : Py.str :=
  Py.lit "final_enriched_summer25 - final_enriched_summer25.csv".

(** The line printed for an updated row. *)
Definition updated_line (company_name : list N) : list N :=
  Py.lit "   âœ… Updated " ++ company_name ++ Py.lit " with real founder data".

(** [main]: the body of [for company in companies], at the row of index
    [i]; the state is the list of rows, [updated_count] and the lines
    printed so far. *)
Definition main_body
    (st : list (gmap string (list N)) * nat * list (list N)) (i : nat)
  : list (gmap string (list N)) * nat * list (list N) :=
  match st.1.1 !! i with
  | None => st
  | Some company =>
      let company_name := Py.get company "Company_Name" [] in
      match REAL_FOUNDER_DATA !! company_name with
      | None => st
      | Some real_data =>
          if is_pattern_data company then
            let updated_company :=
              update_company_with_real_data company real_data in
            (<[i := Py.update company updated_company]> st.1.1, S st.1.2,
             st.2 ++ [updated_line company_name])
          else st
      end
  end.

Definition main_loop (companies : list (gmap string (list N)))
    (out : list (list N))
  : list (gmap string (list N)) * nat * list (list N) :=
  foldl main_body (companies, 0%nat, out) (seq 0 (length companies)).

(** The lines printed after the file is written. *)
Definition summary (total real_count pattern_count : nat) : list (list N) :=
  [ Py.nl :: Py.repeat (Py.lit "=") 70;
    Py.lit "âœ… UPDATE COMPLETE!";
    Py.repeat (Py.lit "=") 70;
    Py.lit "ğŸ“Š Total companies: " ++ Py.str_of_nat total;
    Py.lit "âœ… Real data: " ++ Py.str_of_nat real_count;
    Py.lit "ğŸ¤– Pattern data: " ++ Py.str_of_nat pattern_count;
    Py.lit "ğŸ“ Updated file: " ++ input_file;
    Py.nl :: Py.lit "ğŸ’¡ To add more real data:";
    Py.lit "   1. Visit YC company pages";
    Py.lit "   2. Extract founder info";
    Py.lit "   3. Add to REAL_FOUNDER_DATA dictionary";
    Py.lit "   4. Re-run this script";
    Py.repeat (Py.lit "=") 70 ].

(** What a run of [main] does, given the header and the rows the
    [DictReader] yields ([fieldnames] is [None] for an empty file): the rows
    when the loop has ended, the counts, the strings printed, one per
    [print], the lines the file holds when [main] ends, and the exception
    that ends it, if any. *)
Record Run := {
  companies_after_loop : list (gmap string (list N));
  total : nat;
  updated_count : nat;
  real_count : nat;
  pattern_count : nat;
  printed : list (list N);
  file : list (list (list N));
  raised : option Py.exception
}.

Definition main (fieldnames : option (list string))
    (companies : list (gmap string (list N))) : Run :=
  let out :=
    [ Py.repeat (Py.lit "=") 70;
      Py.lit "BATCH UPDATING CSV WITH REAL FOUNDER DATA";
      Py.repeat (Py.lit "=") 70;
      Py.nl :: Py.lit "ğŸ“– Reading " ++ input_file ++ Py.lit "...";
      Py.lit "   Found " ++ Py.str_of_nat (length companies)
        ++ Py.lit " companies" ] in
  let st := main_loop companies out in
  let companies := st.1.1 in
  let updated_count := st.1.2 in
  let out := st.2 in
  let pattern_count :=
    sum_list
      ((λ _, 1%nat) <$> filter (λ c, is_pattern_data c = true) companies) in
  let real_count := (length companies - pattern_count)%nat in
  let out :=
    out ++ [Py.nl :: Py.lit "ğŸ’¾ Writing updated data back to " ++ input_file ++ Py.lit "..."] in
  let written :=
    match fieldnames with
    | None => Csv.writeheader_None Csv.open_w
    | Some names =>
        Csv.writerows names companies (Csv.writeheader names Csv.open_w)
    end in
  {| companies_after_loop := companies;
     total := length companies;
     updated_count := updated_count;
     real_count := real_count;
     pattern_count := pattern_count;
     printed :=
       match written.2 with
       | Some _ => out
       | None => out ++ summary (length companies) real_count pattern_count
       end;
     file := written.1;
     raised := written.2 |}.

End BatchExtractFounders.

(** ** get_founders_from_yc.py *)

Module GetFoundersFromYc.

Definition is_pattern_data (company : Py.dict) : bool :=
  let founder_first := Py.strip (Py.get company "founder_first_name" []) in
  let founder_email := Py.strip (Py.get company "founder_email" []) in
  if bool_decide (founder_first = Py.lit "Team")
     || bool_decide (founder_first = [])
  then true
  else if Py.startswith founder_email (Py.lit "hello@") then true
  else if negb (Py.truthy (Py.strip (Py.get company "founder_linkedin" [])))
  then true
  else false.

(** [yc_link] is a [str] or [None]. *)
Definition extract_company_slug (yc_link : option Py.str) : option Py.str :=
  match yc_link with
  | None => None
  | Some s => if negb (Py.truthy s) then None else Re.search s
  end.

Definition input_file : Py.str :=
  Py.lit "final_enriched_summer25 - final_enriched_summer25.csv".

Definition output_json : Py.str := Py.lit "companies_needing_founders.json".

(** The loop [for idx, company in enumerate(pattern_companies, 1)] of [main],
    from the turn of index [idx] on: the lines it prints.  [n] is
    [len(pattern_companies)]; the subtraction is reached only when
    [10 <= idx <= n]. *)
Fixpoint listing (n idx : nat) (pattern_companies : list (gmap string (list N)))
  : list (list N) :=
  match pattern_companies with
  | [] => []
  | company :: rest =>
      let yc_link := Py.get company "YC_Link" [] in
      let company_name := Py.get company "Company_Name" [] in
      let slug := extract_company_slug (Some yc_link) in
      (Py.str_of_nat idx ++ Py.lit ". " ++ company_name ++ Py.lit ": "
         ++ yc_link)
      :: (if (10 <=? idx)%nat
          then [Py.lit "... and " ++ Py.str_of_nat (n - 10) ++ Py.lit " more"]
          else listing n (S idx) rest)
  end.

(** What a call of [main] does, given the rows and the header the
    [DictReader] yields: the strings it prints, one per [print]; the list it
    hands to [json.dump], if it gets there; the value it returns, [None] for
    the bare [return]. *)
Record Run := {
  printed : list (list N);
  dumped : option (list (gmap string (list N)));
  returned :
    option (list (gmap string (list N)) * list (gmap string (list N))
            * list N * list string)
}.

Definition main (companies : list (gmap string (list N)))
    (fieldnames : list string) : Run :=
  let out :=
    [ Py.repeat (Py.lit "=") 70;
      Py.lit "IDENTIFYING COMPANIES NEEDING REAL FOUNDER DATA";
      Py.repeat (Py.lit "=") 70;
      Py.nl :: Py.lit "📖 Reading " ++ input_file ++ Py.lit "...";
      Py.lit "   Found " ++ Py.str_of_nat (length companies)
        ++ Py.lit " companies" ] in
  let pattern_companies := filter (λ c, is_pattern_data c = true) companies in
  let real_companies := filter (λ c, is_pattern_data c = false) companies in
  let out :=
    out ++
    [ Py.nl :: Py.lit "📊 Current Status:";
      Py.lit "   ✅ Real data: " ++ Py.str_of_nat (length real_companies);
      Py.lit "   🤖 Pattern data: "
        ++ Py.str_of_nat (length pattern_companies) ] in
  match pattern_companies with
  | [] =>
      {| printed :=
           out ++ [Py.nl :: Py.lit "✅ All companies already have real founder data!"];
         dumped := None;
         returned := None |}
  | _ :: _ =>
      let out :=
        out ++
        [ Py.nl :: Py.lit "📋 Companies needing real founder data ("
            ++ Py.str_of_nat (length pattern_companies) ++ Py.lit "):";
          Py.nl :: Py.lit "YC Links to visit:" ]
        ++ listing (length pattern_companies) 1 pattern_companies in
      let out :=
        out ++
        [ Py.nl :: Py.lit "💾 Saved list to " ++ output_json;
          Py.nl :: Py.lit "🔍 Next step: Visit each YC page and extract founder information";
          Py.lit "   Then update the CSV with real data" ] in
      {| printed := out;
         dumped := Some pattern_companies;
         returned :=
           Some (pattern_companies, companies, input_file, fieldnames) |}
  end.

(** The [__main__] block: the tuple assignment raises [TypeError] when
    [main] has returned [None]. *)
Definition script (companies : list (gmap string (list N)))
    (fieldnames : list string) : list (list N) * option Py.exception :=
  let run := main companies fieldnames in
  match returned run with
  | None => (printed run, Some Py.TypeError)
  | Some (pattern_companies, all_companies, csv_file, fieldnames) =>
      (printed run ++
       [ Py.nl :: Py.lit "✅ Ready to extract founder data for "
           ++ Py.str_of_nat (length pattern_companies)
           ++ Py.lit " companies" ],
       None)
  end.

End GetFoundersFromYc.

(** ** extract_real_founders.py *)

Module ExtractRealFounders.

Definition extract_company_slug (yc_link : option Py.str) : option Py.str :=
  match yc_link with
  | None => None
  | Some s => if negb (Py.truthy s) then None else Re.search s
  end.

Definition is_pattern_data (company : Py.dict) : bool :=
  let founder_first := Py.strip (Py.get company "founder_first_name" []) in
  let founder_email := Py.strip (Py.get company "founder_email" []) in
  if bool_decide (founder_first = Py.lit "Team")
     || bool_decide (founder_first = [])
  then true
  else if Py.startswith founder_email (Py.lit "hello@") then true
  else if negb (Py.truthy (Py.strip (Py.get company "founder_linkedin" [])))
  then true
  else false.

Definition input_file : Py.str :=
  Py.lit "final_enriched_summer25 - final_enriched_summer25.csv".

(** One turn of [for idx, company in enumerate(pattern_companies[:10], 1)];
    [i] counts from 0. *)
Definition listing_line (i : nat) (company : gmap string (list N)) : list N :=
  Py.lit "   " ++ Py.str_of_nat (S i) ++ Py.lit ". "
    ++ Py.format (company !! "Company_Name") ++ Py.lit " - "
    ++ Py.get company "YC_Link" [].

(** The lines of the loop and of the [if] that follows it. *)
Definition listing (pattern_companies : list (gmap string (list N)))
  : list (list N) :=
  imap listing_line (take 10 pattern_companies)
  ++ (if (10 <? length pattern_companies)%nat
      then [Py.lit "   ... and "
              ++ Py.str_of_nat (length pattern_companies - 10)
              ++ Py.lit " more"]
      else []).

(** What a call of [main] prints and returns, given the rows and the header
    the [DictReader] yields; [None] is the bare [return]. *)
Definition main (companies : list (gmap string (list N)))
    (fieldnames : list string)
  : list (list N)
    * option (list (gmap string (list N)) * list (gmap string (list N))
              * list N * list string) :=
  let out :=
    [ Py.repeat (Py.lit "=") 70;
      Py.lit "EXTRACTING REAL FOUNDER DATA FROM YC PAGES";
      Py.repeat (Py.lit "=") 70;
      Py.nl :: Py.lit "📖 Reading " ++ input_file ++ Py.lit "...";
      Py.lit "   Found " ++ Py.str_of_nat (length companies)
        ++ Py.lit " companies" ] in
  let pattern_companies := filter (λ c, is_pattern_data c = true) companies in
  let real_companies := filter (λ c, is_pattern_data c = false) companies in
  let out :=
    out ++
    [ Py.nl :: Py.lit "📊 Current Status:";
      Py.lit "   ✅ Real data: " ++ Py.str_of_nat (length real_companies);
      Py.lit "   🤖 Pattern data: "
        ++ Py.str_of_nat (length pattern_companies) ] in
  match pattern_companies with
  | [] =>
      (out ++ [Py.nl :: Py.lit "✅ All companies already have real founder data!"],
       None)
  | _ :: _ =>
      (out ++
       [ Py.nl :: Py.lit "🔍 Need to extract real data for "
           ++ Py.str_of_nat (length pattern_companies) ++ Py.lit " companies";
         Py.lit "   This will visit each YC company page to extract founder info";
         Py.nl :: Py.lit "📋 Companies needing real data:" ]
       ++ listing pattern_companies,
       Some (pattern_companies, companies, input_file, fieldnames))
  end.

(** The [__main__] block: the tuple assignment raises [TypeError] when
    [main] has returned [None]. *)
Definition script (companies : list (gmap string (list N)))
    (fieldnames : list string) : list (list N) * option Py.exception :=
  let run := main companies fieldnames in
  match run.2 with
  | None => (run.1, Some Py.TypeError)
  | Some (pattern_companies, all_companies, csv_file, fieldnames) =>
      (run.1 ++
       [ Py.nl :: Py.lit "📋 Ready to process "
           ++ Py.str_of_nat (length pattern_companies)
           ++ Py.lit " companies" ],
       None)
  end.

End ExtractRealFounders.

(** ** find_founders_batch.py *)

Module FindFoundersBatch.

(** The body of [for c in reader]: [companies] after the if/elif chain. *)
Definition select (companies : list (gmap string (list N)))
    (c : gmap string (list N)) : list (gmap string (list N)) :=
  let founder_first := Py.strip (Py.get c "founder_first_name" []) in
  let founder_email := Py.strip (Py.get c "founder_email" []) in
  if bool_decide (founder_first = Py.lit "Team")
     || bool_decide (founder_first = [])
  then companies ++ [c]
  else if Py.startswith founder_email (Py.lit "hello@") then companies ++ [c]
  else if negb (Py.truthy (Py.strip (Py.get c "founder_linkedin" [])))
  then companies ++ [c]
  else companies.

(** [reader] stands for the rows the [DictReader] yields. *)
Definition get_companies_needing_founders
    (reader : list (gmap string (list N))) : list (gmap string (list N)) :=
  foldl select [] reader.

(** One turn of [for i, c in enumerate(companies[:20], 1)]; [i] counts
    from 0. *)
Definition listing_line (i : nat) (c : gmap string (list N)) : list N :=
  Py.str_of_nat (S i) ++ Py.lit ". " ++ Py.format (c !! "Company_Name")
    ++ Py.lit " - " ++ Py.get c "YC_Link" [].

(** What [main] prints and returns, given the rows the [DictReader]
    yields. *)
Definition main (reader : list (gmap string (list N)))
  : list (list N) * list (gmap string (list N)) :=
  let companies := get_companies_needing_founders reader in
  ([ Py.lit "Companies needing founder data: "
       ++ Py.str_of_nat (length companies);
     Py.nl :: Py.lit "First 20 companies:" ]
   ++ imap listing_line (take 20 companies),
   companies).

End FindFoundersBatch.

(** ** Vocabulary of the statements *)

(** The keys that [update_company_with_real_data] writes. *)
Definition merge_targets : gset string :=
  {[ "founder_first_name"; "founder_last_name"; "founder_email";
     "founder_linkedin"; "website"; "job_openings"; "funding_stage";
     "amount_raised"; "date_raised"; "data_quality" ]}.

(** The ['Company_Name'] of a row, as [main] reads it. *)
Definition company_name_of (company : gmap string (list N)) : list N :=
  Py.get company "Company_Name" [].

(** Whether [main] updates the row: its company is a key of the table and
    the row is classified as pattern data. *)
Definition eligible (company : gmap string (list N)) : Prop :=
  is_Some (BatchExtractFounders.REAL_FOUNDER_DATA !! company_name_of company)
  ∧ BatchExtractFounders.is_pattern_data company = true.

#[global] Instance eligible_dec company : Decision (eligible company).
Proof. unfold eligible. apply _. Defined.

(** The row that stands for [company] after the loop of [main]. *)
Definition merged_row (company : gmap string (list N))
  : gmap string (list N) :=
  match BatchExtractFounders.REAL_FOUNDER_DATA !! company_name_of company with
  | Some real_data =>
      if BatchExtractFounders.is_pattern_data company
      then BatchExtractFounders.update_company_with_real_data company real_data
      else company
  | None => company
  end.

(** The fields [DictWriter] writes for [company] under the header
    [fieldnames]: the value of each column, the empty string for a column
    the row does not have. *)
Definition fields_of (fieldnames : list string)
    (company : gmap string (list N)) : list (list N) :=
  (λ key, Py.get company key []) <$> fieldnames.

(** How many data lines of [file] (the lines after the header) differ from
    the fields of the row read at the same place. *)
Definition changed_lines (fieldnames : list string)
    (companies : list (gmap string (list N))) (file : list (list (list N)))
  : nat :=
  length (filter (λ p, fields_of fieldnames p.1 ≠ p.2)
            (zip companies (drop 1 file))).

(** [seg] is what [/companies/([^/]+)] captures in [s]: a non-empty run
    without [/] that follows the marker and stops at a [/] or at the end of
    [s], at the leftmost place where the marker is followed by such a run. *)
Definition captures (s seg : list N) : Prop :=
  ∃ pre rest,
    s = pre ++ Py.lit "/companies/" ++ seg ++ rest
    ∧ seg ≠ []
    ∧ (Re.slash ∉ seg)
    ∧ (rest = [] ∨ head rest = Some Re.slash)
    ∧ ∀ p c q,
        s = p ++ Py.lit "/companies/" ++ c :: q → c ≠ Re.slash →
        (length pre ≤ length p)%nat.

(** Three rows of the shape the CSV has, used to run the definitions: a
    row of guessed data whose company is in the table, one whose company is
    not, and a row of researched data. *)
Definition row_doe : gmap string (list N) :=
  {[ "Company_Name" := Py.lit "Doe";
     "YC_Link" := Py.lit "https://www.ycombinator.com/companies/doe";
     "founder_first_name" := Py.lit "Team";
     "founder_last_name" := Py.lit "";
     "founder_email" := Py.lit "hello@doe.so";
     "founder_linkedin" := Py.lit "";
     "website" := Py.lit "doe.so";
     "job_openings" := Py.lit "";
     "data_quality" := Py.lit "PATTERN" ]}.

Definition row_nobody : gmap string (list N) :=
  {[ "Company_Name" := Py.lit "Nobody Inc";
     "YC_Link" := Py.lit "https://www.ycombinator.com/companies/nobody";
     "founder_first_name" := Py.lit "Ann";
     "founder_last_name" := Py.lit "Onymous";
     "founder_email" := Py.lit "hello@nobody.io";
     "founder_linkedin" := Py.lit "linkedin.com/in/ann";
     "website" := Py.lit "nobody.io";
     "job_openings" := Py.lit "Engineering Intern";
     "data_quality" := Py.lit "PATTERN" ]}.

Definition row_real : gmap string (list N) :=
  {[ "Company_Name" := Py.lit "Realco";
     "YC_Link" := Py.lit "https://www.ycombinator.com/companies/realco";
     "founder_first_name" := Py.lit "Bob";
     "founder_last_name" := Py.lit "Builder";
     "founder_email" := Py.lit "bob@realco.io";
     "founder_linkedin" := Py.lit "linkedin.com/in/bob";
     "website" := Py.lit "realco.io";
     "job_openings" := Py.lit "Engineering Intern";
     "data_quality" := Py.lit "REAL" ]}.

(** The table entry of ["Doe"]. *)
Definition real_doe : BatchExtractFounders.RealData :=
  (BatchExtractFounders.entry "Doe"
     "Adrian" "Barbir" "founders@doe.so"
     "linkedin.com/in/adrianbarbir" "doe.so").2.

(** The header of the three sample rows, which lacks three of the columns
    the merge writes, and a header that has them all. *)
Definition nine_columns : list string :=
  [ "Company_Name"; "YC_Link"; "founder_first_name"; "founder_last_name";
    "founder_email"; "founder_linkedin"; "website"; "job_openings";
    "data_quality" ].

Definition twelve_columns : list string :=
  [ "Company_Name"; "YC_Link"; "founder_first_name"; "founder_last_name";
    "founder_email"; "founder_linkedin"; "website"; "job_openings";
    "funding_stage"; "amount_raised"; "date_raised"; "data_quality" ].

(** A sample row with the three columns added. *)
Definition with_funding (company : gmap string (list N))
  : gmap string (list N) :=
  <["funding_stage" := Py.lit "Seed"]>
    (<["amount_raised" := Py.lit ""]>
       (<["date_raised" := Py.lit "Summer 2025"]> company)).

(** ** Python strings: what [strip] returns *)

Section strip.

Implicit Types s t : list N.

Lemma lstrip_split s :
  ∃ l, s = l ++ Py.lstrip s ∧ Forall (λ c, Py.isspace c = true) l.
Proof.
  induction s as [|c s [l [Hs Hl]]]; simpl.
  - exists []. by split.
  - destruct (Py.isspace c) eqn:Hc.
    + exists (c :: l). split; [by rewrite Hs at 1 | by constructor].
    + exists []. by split.
Qed.

Lemma lstrip_head s c : head (Py.lstrip s) = Some c → Py.isspace c = false.
Proof.
  induction s as [|a s IH]; simpl; [done|].
  destruct (Py.isspace a) eqn:Ha; [done|].
  simpl. by intros [= <-].
Qed.

Lemma rstrip_split s :
  ∃ r, s = Py.rstrip s ++ r ∧ Forall (λ c, Py.isspace c = true) r.
Proof.
  unfold Py.rstrip.
  destruct (lstrip_split (reverse s)) as [l [Hs Hl]].
  exists (reverse l). split.
  - rewrite <- reverse_app, <- Hs. by rewrite reverse_involutive.
  - by apply Forall_reverse.
Qed.

Lemma rstrip_last s c : last (Py.rstrip s) = Some c → Py.isspace c = false.
Proof.
  unfold Py.rstrip. rewrite last_reverse. apply lstrip_head.
Qed.

Lemma rstrip_head s c :
  head (Py.rstrip s) = Some c → head s = Some c.
Proof.
  destruct (rstrip_split s) as [r [Hs _]].
  intros H. rewrite Hs. by destruct (Py.rstrip s).
Qed.

(** [strip] removes a run of white space at each end and leaves a string
    that neither begins nor ends with white space. *)
Lemma strip_spec s :
  ∃ l r,
    s = l ++ Py.strip s ++ r
    ∧ Forall (λ c, Py.isspace c = true) l
    ∧ Forall (λ c, Py.isspace c = true) r
    ∧ (∀ c, head (Py.strip s) = Some c → Py.isspace c = false)
    ∧ (∀ c, last (Py.strip s) = Some c → Py.isspace c = false).
Proof.
  unfold Py.strip.
  destruct (lstrip_split s) as [l [Hs Hl]].
  destruct (rstrip_split (Py.lstrip s)) as [r [Ht Hr]].
  exists l, r. repeat split; try done.
  - by rewrite <- Ht.
  - intros c Hc. by apply (lstrip_head s), rstrip_head.
  - apply rstrip_last.
Qed.

Lemma truthy_false s : Py.truthy s = false ↔ s = [].
Proof. by destruct s. Qed.

Lemma startswith_prefix s p : Py.startswith s p = true ↔ ∃ t, s = p ++ t.
Proof.
  revert s. induction p as [|a p IH]; intros s; simpl.
  - split; [intros _; by exists s | done].
  - destruct s as [|c s].
    + split; [done | by intros [t ?]].
    + rewrite andb_true_iff, IH, N.eqb_eq. split.
      * intros [-> [t ->]]. eauto.
      * intros [t [= -> ->]]. eauto.
Qed.

End strip.

Import BatchExtractFounders.

#[global] Arguments REAL_marker : simpl never.
#[global] Arguments Py.lit : simpl never.

(** ** The merge, key by key *)

Section merge.

Implicit Types company : gmap string (list N).
Implicit Types real_data : RealData.

Lemma update_lookup company real_data k :
  update_company_with_real_data company real_data !! k =
  if decide ("data_quality" = k) then Some REAL_marker
  else if decide ("date_raised" = k) then
    Some (Py.get company "date_raised" (Py.lit "Summer 2025"))
  else if decide ("amount_raised" = k) then
    Some (Py.get company "amount_raised" (Py.lit "$1.5M"))
  else if decide ("funding_stage" = k) then
    Some (Py.get company "funding_stage" (Py.lit "Seed"))
  else if decide ("job_openings" = k) then
    Some (Py.get company "job_openings"
            (Py.lit "Software Engineering Intern, Product Intern"))
  else if decide ("website" = k) then Some (website real_data)
  else if decide ("founder_linkedin" = k) then
    Some (founder_linkedin real_data)
  else if decide ("founder_email" = k) then Some (founder_email real_data)
  else if decide ("founder_last_name" = k) then
    Some (founder_last real_data)
  else if decide ("founder_first_name" = k) then
    Some (founder_first real_data)
  else company !! k.
Proof.
  unfold update_company_with_real_data. by rewrite !lookup_insert.
Qed.

Ltac at_key := rewrite update_lookup; repeat case_decide; done.

Lemma update_first_name company real_data :
  update_company_with_real_data company real_data !! "founder_first_name"
  = Some (founder_first real_data).
Proof. at_key. Qed.

Lemma update_last_name company real_data :
  update_company_with_real_data company real_data !! "founder_last_name"
  = Some (founder_last real_data).
Proof. at_key. Qed.

Lemma update_email company real_data :
  update_company_with_real_data company real_data !! "founder_email"
  = Some (founder_email real_data).
Proof. at_key. Qed.

Lemma update_linkedin company real_data :
  update_company_with_real_data company real_data !! "founder_linkedin"
  = Some (founder_linkedin real_data).
Proof. at_key. Qed.

Lemma update_website company real_data :
  update_company_with_real_data company real_data !! "website"
  = Some (website real_data).
Proof. at_key. Qed.

Lemma update_job_openings company real_data :
  update_company_with_real_data company real_data !! "job_openings"
  = Some (Py.get company "job_openings"
            (Py.lit "Software Engineering Intern, Product Intern")).
Proof. at_key. Qed.

Lemma update_funding_stage company real_data :
  update_company_with_real_data company real_data !! "funding_stage"
  = Some (Py.get company "funding_stage" (Py.lit "Seed")).
Proof. at_key. Qed.

Lemma update_amount_raised company real_data :
  update_company_with_real_data company real_data !! "amount_raised"
  = Some (Py.get company "amount_raised" (Py.lit "$1.5M")).
Proof. at_key. Qed.

Lemma update_date_raised company real_data :
  update_company_with_real_data company real_data !! "date_raised"
  = Some (Py.get company "date_raised" (Py.lit "Summer 2025")).
Proof. at_key. Qed.

Lemma update_data_quality company real_data :
  update_company_with_real_data company real_data !! "data_quality"
  = Some REAL_marker.
Proof. at_key. Qed.

(** A key outside the ten written ones keeps the entry of the row. *)
Lemma update_other company real_data k :
  k ∉ merge_targets →
  update_company_with_real_data company real_data !! k = company !! k.
Proof.
  intros Hk. rewrite update_lookup.
  repeat (case_decide as E;
          [exfalso; apply Hk; rewrite <- E; unfold merge_targets;
           set_solver | clear E]).
  done.
Qed.

Lemma update_dom company real_data :
  dom (update_company_with_real_data company real_data)
  = dom company ∪ merge_targets.
Proof.
  unfold update_company_with_real_data, merge_targets.
  rewrite !dom_insert_L. apply set_eq. intros x.
  rewrite !elem_of_union, !elem_of_singleton. tauto.
Qed.

(** A [get] whose key is present returns the entry. *)
Lemma get_present (d : gmap string (list N)) k v default :
  d !! k = Some v → Py.get d k default = v.
Proof. unfold Py.get. by intros ->. Qed.

Lemma update_twice company real_data :
  update_company_with_real_data
    (update_company_with_real_data company real_data) real_data
  = update_company_with_real_data company real_data.
Proof.
  apply map_eq. intros k.
  rewrite (update_lookup (update_company_with_real_data _ _)).
  rewrite (get_present _ _ _ _ (update_job_openings company real_data)).
  rewrite (get_present _ _ _ _ (update_funding_stage company real_data)).
  rewrite (get_present _ _ _ _ (update_amount_raised company real_data)).
  rewrite (get_present _ _ _ _ (update_date_raised company real_data)).
  rewrite !update_lookup. by repeat case_decide.
Qed.

(** [company.update(updated_company)] leaves [company] equal to the merged
    dictionary: every key of [company] is a key of the display. *)
Lemma update_in_place company real_data :
  Py.update company (update_company_with_real_data company real_data)
  = update_company_with_real_data company real_data.
Proof.
  unfold Py.update. apply map_eq. intros k.
  rewrite lookup_union.
  destruct (update_company_with_real_data company real_data !! k) as [v|] eqn:E.
  - by destruct (company !! k).
  - rewrite update_lookup in E. repeat case_decide; try done.
    rewrite E. done.
Qed.

End merge.

(** ** The classification *)

Section classify.

Implicit Types company : gmap string (list N).

Lemma is_pattern_data_true company :
  is_pattern_data company = true ↔
    (Py.strip (Py.get company "founder_first_name" []) = Py.lit "Team"
     ∨ Py.strip (Py.get company "founder_first_name" []) = [])
    ∨ Py.startswith (Py.strip (Py.get company "founder_email" []))
        (Py.lit "hello@") = true
    ∨ Py.strip (Py.get company "founder_linkedin" []) = [].
Proof.
  unfold is_pattern_data. cbv zeta.
  case_bool_decide as H1; [cbn [orb]; tauto |].
  case_bool_decide as H2; [cbn [orb]; tauto |].
  cbn [orb].
  destruct (Py.startswith _ _) eqn:H3; [tauto |].
  destruct (Py.strip (Py.get company "founder_linkedin" [])) as [|c l] eqn:H4;
    cbn [Py.truthy negb]; [tauto |].
  split; [done |]. intros [[?|?]|[?|?]]; done.
Qed.

Lemma is_pattern_data_false company :
  is_pattern_data company = false ↔
    Py.strip (Py.get company "founder_first_name" []) ≠ Py.lit "Team"
    ∧ Py.strip (Py.get company "founder_first_name" []) ≠ []
    ∧ Py.startswith (Py.strip (Py.get company "founder_email" []))
        (Py.lit "hello@") = false
    ∧ Py.strip (Py.get company "founder_linkedin" []) ≠ [].
Proof.
  rewrite <- not_true_iff_false, is_pattern_data_true.
  destruct (Py.startswith _ _); split.
  - intros H. exfalso. apply H. tauto.
  - intros (_ & _ & ? & _). done.
  - intros H. repeat split; try done; intros E; apply H; tauto.
  - intros (H1 & H2 & _ & H3) [[?|?]|[?|?]]; done.
Qed.

(** The classification reads three fields of the row, each through [get]
    with the empty string as default, and nothing else. *)
Lemma is_pattern_data_get_ext company1 company2 :
  Py.get company1 "founder_first_name" [] = Py.get company2 "founder_first_name" [] →
  Py.get company1 "founder_email" [] = Py.get company2 "founder_email" [] →
  Py.get company1 "founder_linkedin" [] = Py.get company2 "founder_linkedin" [] →
  is_pattern_data company1 = is_pattern_data company2.
Proof.
  intros H1 H2 H3. unfold is_pattern_data. by rewrite H1, H2, H3.
Qed.

Lemma is_pattern_data_ext company1 company2 :
  company1 !! "founder_first_name" = company2 !! "founder_first_name" →
  company1 !! "founder_email" = company2 !! "founder_email" →
  company1 !! "founder_linkedin" = company2 !! "founder_linkedin" →
  is_pattern_data company1 = is_pattern_data company2.
Proof.
  intros H1 H2 H3. unfold is_pattern_data, Py.get.
  by rewrite H1, H2, H3.
Qed.

(** After a merge the classification depends on the table entry alone. *)
Lemma is_pattern_data_update company real_data :
  is_pattern_data (update_company_with_real_data company real_data)
  = is_pattern_data (update_company_with_real_data ∅ real_data).
Proof.
  apply is_pattern_data_ext.
  - by rewrite !update_first_name.
  - by rewrite !update_email.
  - by rewrite !update_linkedin.
Qed.

(** The if/elif chain of [find_founders_batch.py] appends the row exactly
    when [is_pattern_data] holds of it. *)
Lemma select_spec company (companies : list (gmap string (list N))) :
  FindFoundersBatch.select companies company
  = if is_pattern_data company then companies ++ [company] else companies.
Proof.
  unfold FindFoundersBatch.select, is_pattern_data. cbv zeta.
  destruct (_ || _); [done |].
  destruct (Py.startswith _ _); [done |].
  by destruct (negb _).
Qed.

Lemma get_companies_needing_founders_spec
    (reader : list (gmap string (list N))) :
  FindFoundersBatch.get_companies_needing_founders reader
  = filter (λ c, is_pattern_data c = true) reader.
Proof.
  unfold FindFoundersBatch.get_companies_needing_founders.
  assert (∀ acc, foldl FindFoundersBatch.select acc reader
                 = acc ++ filter (λ c, is_pattern_data c = true) reader)
    as Hgen.
  { induction reader as [|c reader IH]; intros acc; simpl.
    - by rewrite app_nil_r.
    - rewrite IH, select_spec, filter_cons.
      destruct (is_pattern_data c) eqn:Hc.
      + rewrite decide_True by done. by rewrite <- app_assoc.
      + rewrite decide_False by done. done. }
  apply Hgen.
Qed.

End classify.

(** ** The table *)

Section table.

(** An entry of a display comes from its list of entries. *)
Lemma display_lookup `{Countable K} {V} (entries : list (K * V)) k v :
  Py.display entries !! k = Some v → (k, v) ∈ entries.
Proof.
  unfold Py.display.
  assert (∀ d : gmap K V,
            foldl (λ d kv, <[kv.1 := kv.2]> d) d entries !! k = Some v →
            d !! k = Some v ∨ (k, v) ∈ entries) as Hgen.
  { induction entries as [|[k' v'] entries IH]; intros d; simpl.
    - by left.
    - intros [Hd|Hin]%IH.
      + rewrite lookup_insert in Hd. case_decide as E.
        * simpl in E. injection Hd as <-. subst k'. right. left.
        * by left.
      + right. by right. }
  intros [Hd|Hin]%Hgen; [by rewrite lookup_empty in Hd | done].
Qed.

(** No entry of the table, merged into any row, is classified as pattern
    data: checked entry by entry. *)
Lemma table_entries_real :
  Forall (λ kv, is_pattern_data (update_company_with_real_data ∅ kv.2) = false)
    REAL_FOUNDER_DATA_entries.
Proof.
  apply (bool_decide_unpack _). vm_compute. exact I.
Qed.

Lemma table_real name real_data :
  REAL_FOUNDER_DATA !! name = Some real_data →
  is_pattern_data (update_company_with_real_data ∅ real_data) = false.
Proof.
  unfold REAL_FOUNDER_DATA. intros Hin%display_lookup.
  by apply (proj1 (Forall_forall _ _) table_entries_real (name, real_data)).
Qed.

End table.

(** The table is a closed term of 75 entries: proofs go through its lemmas
    and evaluation, never through unfolding it. *)
Opaque REAL_FOUNDER_DATA REAL_FOUNDER_DATA_entries.

(** ** The writer *)

Section csv_writer.

Implicit Types fieldnames : list string.
Implicit Types rowdict company : gmap string (list N).
Implicit Types file : list (list (list N)).

Lemma difference_empty_subseteq (X Y : gset string) : X ∖ Y = ∅ ↔ X ⊆ Y.
Proof.
  split.
  - intros He x Hx. destruct (decide (x ∈ Y)) as [|Hn]; [done |].
    assert (x ∈ X ∖ Y) as Hd by (apply elem_of_difference; by split).
    rewrite He in Hd. by apply not_elem_of_empty in Hd.
  - intros Hs. apply set_eq. intros x.
    rewrite elem_of_difference. split.
    + intros [Hx Hn]. exfalso. apply Hn, Hs, Hx.
    + intros Hx. by apply not_elem_of_empty in Hx.
Qed.

Lemma dict_to_list_Some fieldnames rowdict :
  dom rowdict ⊆ list_to_set fieldnames →
  Csv.dict_to_list fieldnames rowdict = Some (fields_of fieldnames rowdict).
Proof.
  intros Hs. unfold Csv.dict_to_list. cbv zeta.
  rewrite decide_True; [reflexivity |]. by apply difference_empty_subseteq.
Qed.

Lemma dict_to_list_None fieldnames rowdict :
  ¬ dom rowdict ⊆ list_to_set fieldnames →
  Csv.dict_to_list fieldnames rowdict = None.
Proof.
  intros Hs. unfold Csv.dict_to_list. cbv zeta.
  rewrite decide_False; [reflexivity |]. by rewrite difference_empty_subseteq.
Qed.

(** All rows within the header: every line is written. *)
Lemma writerows_all fieldnames (rowdicts : list (gmap string (list N))) file :
  Forall (λ r, dom r ⊆ list_to_set fieldnames) rowdicts →
  Csv.writerows fieldnames rowdicts file
  = (file ++ (fields_of fieldnames <$> rowdicts), None).
Proof.
  intros Hall. revert file.
  induction Hall as [|r rest Hr _ IH]; intros file; simpl.
  - by rewrite app_nil_r.
  - rewrite dict_to_list_Some by done. rewrite IH.
    by rewrite <- app_assoc.
Qed.

(** A row with a key outside the header: the lines of the rows before it
    are written, and [ValueError] is raised. *)
Lemma writerows_stops fieldnames
    (before : list (gmap string (list N))) bad
    (rest : list (gmap string (list N))) file :
  Forall (λ r, dom r ⊆ list_to_set fieldnames) before →
  ¬ dom bad ⊆ list_to_set fieldnames →
  Csv.writerows fieldnames (before ++ bad :: rest) file
  = (file ++ (fields_of fieldnames <$> before), Some Py.ValueError).
Proof.
  intros Hall Hbad. revert file.
  induction Hall as [|r before Hr _ IH]; intros file; simpl.
  - rewrite dict_to_list_None by done. by rewrite app_nil_r.
  - rewrite dict_to_list_Some by done. rewrite IH.
    by rewrite <- app_assoc.
Qed.

(** The first row with a key outside the header, when there is one. *)
Lemma first_outside fieldnames (rowdicts : list (gmap string (list N))) :
  ¬ Forall (λ r, dom r ⊆ list_to_set fieldnames) rowdicts →
  ∃ before bad rest,
    rowdicts = before ++ bad :: rest
    ∧ Forall (λ r, dom r ⊆ list_to_set fieldnames) before
    ∧ ¬ dom bad ⊆ list_to_set fieldnames.
Proof.
  induction rowdicts as [|r rowdicts IH]; intros Hn.
  - exfalso. apply Hn. constructor.
  - destruct (decide (dom r ⊆ list_to_set fieldnames)) as [Hr|Hr].
    + destruct IH as (before & bad & rest & -> & Hb & Hbad).
      { intros Hall. apply Hn. by constructor. }
      exists (r :: before), bad, rest. repeat split; [by constructor | done].
    + exists [], r, rowdicts. repeat split; [constructor | done].
Qed.

Lemma fields_of_get fieldnames company1 company2 k :
  fields_of fieldnames company1 = fields_of fieldnames company2 →
  k ∈ fieldnames →
  Py.get company1 k [] = Py.get company2 k [].
Proof.
  unfold fields_of. intros Heq Hk.
  induction fieldnames as [|key fieldnames IH]; [by apply elem_of_nil in Hk |].
  cbn [fmap list_fmap] in Heq. injection Heq as Hkey Heq.
  apply elem_of_cons in Hk as [->|Hk]; [done | by apply IH].
Qed.

End csv_writer.

(** ** The loop of [main] *)

Section driver.

Implicit Types companies : list (gmap string (list N)).
Implicit Types company : gmap string (list N).
Implicit Types out : list (list N).

(** One turn of the loop, at a row that exists. *)
Lemma main_body_at companies n out j company :
  companies !! j = Some company →
  main_body (companies, n, out) j
  = (<[j := merged_row company]> companies,
     if decide (eligible company) then S n else n,
     if decide (eligible company)
     then out ++ [updated_line (company_name_of company)] else out).
Proof.
  intros Hj. unfold main_body, merged_row, company_name_of.
  cbn [fst snd]. rewrite Hj.
  destruct (REAL_FOUNDER_DATA !! Py.get company "Company_Name" [])
    as [real_data|] eqn:Ht.
  - destruct (is_pattern_data company) eqn:Hp.
    + rewrite update_in_place. rewrite !decide_True; [done | |].
      all: split; [unfold company_name_of; by rewrite Ht | exact Hp].
    + rewrite list_insert_id by exact Hj. rewrite !decide_False; [done | |].
      all: intros [_ ?]; congruence.
  - rewrite list_insert_id by exact Hj. rewrite !decide_False; [done | |].
    all: intros [[? Hs] _]; unfold company_name_of in Hs; congruence.
Qed.

(** After the first [j] turns, the first [j] rows are merged, the others
    are as they were read, and one line is printed for each row updated. *)
Lemma main_loop_prefix companies out j :
  (j ≤ length companies)%nat →
  foldl main_body (companies, 0%nat, out) (seq 0 j)
  = ((merged_row <$> take j companies) ++ drop j companies,
     length (filter eligible (take j companies)),
     out ++ ((λ c, updated_line (company_name_of c))
               <$> filter eligible (take j companies))).
Proof.
  induction j as [|j IH]; intros Hlen.
  - rewrite take_0, drop_0. cbn. by rewrite app_nil_r.
  - rewrite seq_S, foldl_app, IH by lia. simpl.
    destruct (lookup_lt_is_Some_2 companies j) as [company Hj]; [lia |].
    assert (length (merged_row <$> take j companies) = j) as Hpre.
    { rewrite length_fmap, length_take. lia. }
    rewrite (main_body_at _ _ _ _ company).
    + rewrite insert_app_r_alt by lia.
      rewrite Hpre, Nat.sub_diag.
      rewrite (drop_S _ _ _ Hj), (take_S_r _ _ _ Hj). simpl.
      rewrite fmap_app, filter_app, length_app, fmap_app, <- !app_assoc. simpl.
      rewrite filter_cons, filter_nil.
      destruct (decide (eligible company)); simpl.
      * f_equal. f_equal. lia.
      * rewrite app_nil_r. f_equal. f_equal. lia.
    + rewrite lookup_app_r by lia.
      rewrite Hpre, Nat.sub_diag, lookup_drop, Nat.add_0_r. done.
Qed.

Lemma main_loop_spec companies out :
  main_loop companies out
  = (merged_row <$> companies,
     length (filter eligible companies),
     out ++ ((λ c, updated_line (company_name_of c))
               <$> filter eligible companies)).
Proof.
  unfold main_loop. rewrite main_loop_prefix by done.
  rewrite firstn_all, drop_all. by rewrite app_nil_r.
Qed.

(** [sum(1 for c in l)] is the number of elements. *)
Lemma sum_ones {A} (l : list A) : sum_list ((λ _, 1%nat) <$> l) = length l.
Proof. induction l as [|x l IH]; [done |]. cbn. by f_equal. Qed.

(** The rows and the counts of a run. *)
Lemma main_after_loop fieldnames companies :
  companies_after_loop (main fieldnames companies) = merged_row <$> companies.
Proof. unfold main. by rewrite main_loop_spec. Qed.

Lemma main_total fieldnames companies :
  total (main fieldnames companies) = length companies.
Proof.
  unfold main. rewrite main_loop_spec. cbn [total fst snd].
  by rewrite length_fmap.
Qed.

Lemma main_updated_count fieldnames companies :
  updated_count (main fieldnames companies)
  = length (filter eligible companies).
Proof. unfold main. by rewrite main_loop_spec. Qed.

Lemma main_pattern_count fieldnames companies :
  pattern_count (main fieldnames companies)
  = length (filter (λ c, is_pattern_data c = true) (merged_row <$> companies)).
Proof.
  unfold main. rewrite main_loop_spec. cbn [pattern_count fst snd].
  by rewrite sum_ones.
Qed.

Lemma main_real_count fieldnames companies :
  real_count (main fieldnames companies)
  = (length companies - pattern_count (main fieldnames companies))%nat.
Proof.
  unfold main. rewrite main_loop_spec. cbn [real_count pattern_count fst snd].
  by rewrite length_fmap.
Qed.

(** The write of a run with a header. *)
Lemma main_written names companies :
  (file (main (Some names) companies), raised (main (Some names) companies))
  = Csv.writerows names (merged_row <$> companies) [Py.lit <$> names].
Proof.
  unfold main. rewrite main_loop_spec. cbn [file raised fst snd].
  by destruct (Csv.writerows _ _ _).
Qed.

(** The summary is printed when, and only when, nothing is raised: six
    lines and one per updated row come before it. *)
Lemma main_printed fieldnames companies :
  let run := main fieldnames companies in
  ∃ before,
    length before = (6 + updated_count run)%nat
    ∧ printed run
      = before ++ match raised run with
                  | Some _ => []
                  | None =>
                      summary (total run) (real_count run) (pattern_count run)
                  end.
Proof.
  cbv zeta. unfold main. rewrite main_loop_spec.
  cbn [printed raised total real_count pattern_count updated_count fst snd].
  rewrite length_fmap.
  eexists. split; [| destruct (snd _); [symmetry; apply app_nil_r | reflexivity]].
  rewrite !length_app, length_fmap. cbn [length]. lia.
Qed.

(** A row is pattern data after the loop exactly when it was so before and
    the table has nothing for its company. *)
Lemma merged_row_pattern company :
  is_pattern_data (merged_row company) = true ↔
    is_pattern_data company = true
    ∧ REAL_FOUNDER_DATA !! company_name_of company = None.
Proof.
  unfold merged_row.
  destruct (REAL_FOUNDER_DATA !! company_name_of company)
    as [real_data|] eqn:Ht.
  - destruct (is_pattern_data company) eqn:Hp.
    + rewrite is_pattern_data_update, (table_real _ _ Ht).
      split; [discriminate | intros [_ ?]; discriminate].
    + rewrite Hp. split; [discriminate | intros [? _]; discriminate].
  - split; [intros Hp; split; [exact Hp | reflexivity] | intros [Hp _]; exact Hp].
Qed.

(** The row is rewritten exactly when it is eligible. *)
Lemma merged_row_changed company :
  company ≠ merged_row company ↔ eligible company.
Proof.
  unfold merged_row, eligible.
  destruct (REAL_FOUNDER_DATA !! company_name_of company)
    as [real_data|] eqn:Ht.
  - destruct (is_pattern_data company) eqn:Hp.
    + split; [eauto |]. intros _ E.
      pose proof (table_real _ _ Ht) as Hreal.
      rewrite <- is_pattern_data_update with (company := company) in Hreal.
      congruence.
    + split; [intros Hne; exfalso; apply Hne; reflexivity |].
      intros [_ ?]; discriminate.
  - split; [intros Hne; exfalso; apply Hne; reflexivity |].
    intros [[? ?] _]; discriminate.
Qed.

Lemma merged_row_id company : ¬ eligible company → merged_row company = company.
Proof.
  intros He. destruct (decide (company = merged_row company)) as [<-|Hne].
  - reflexivity.
  - by apply merged_row_changed in Hne.
Qed.

(** The keys of a row after the loop. *)
Lemma merged_row_dom company :
  dom (merged_row company)
  = if decide (eligible company) then dom company ∪ merge_targets
    else dom company.
Proof.
  destruct (decide (eligible company)) as [He|He].
  - destruct He as [[real_data Ht] Hp]. unfold merged_row.
    rewrite Ht, Hp. apply update_dom.
  - by rewrite merged_row_id.
Qed.

(** With the merge columns in the header, an updated row is written with
    other fields than it was read with. *)
Lemma merged_row_fields fieldnames company :
  eligible company →
  merge_targets ⊆ list_to_set fieldnames →
  fields_of fieldnames (merged_row company) ≠ fields_of fieldnames company.
Proof.
  intros He Hcols Heq.
  assert (∀ k, k ∈ merge_targets →
               Py.get (merged_row company) k [] = Py.get company k [])
    as Hget.
  { intros k Hk. apply (fields_of_get fieldnames); [done |].
    apply Hcols in Hk. by apply elem_of_list_to_set in Hk. }
  assert (is_pattern_data (merged_row company) = is_pattern_data company)
    as Hsame.
  { apply is_pattern_data_get_ext; apply Hget; unfold merge_targets;
      rewrite !elem_of_union, !elem_of_singleton; tauto. }
  destruct He as [[real_data Ht] Hp]. rewrite Hp in Hsame.
  apply merged_row_pattern in Hsame as [_ Hnone]. congruence.
Qed.

(** What the write of a run amounts to: either every row after the loop
    has its keys in the header and all the lines are written, or the lines
    of the rows before the first other row are, and [ValueError] is
    raised. *)
Lemma main_write_cases names companies :
  let run := main (Some names) companies in
  (Forall (λ r, dom r ⊆ list_to_set names) (merged_row <$> companies)
   ∧ file run
     = (Py.lit <$> names) :: (fields_of names <$> (merged_row <$> companies))
   ∧ raised run = None)
  ∨ (∃ before bad rest,
       merged_row <$> companies = before ++ bad :: rest
       ∧ Forall (λ r, dom r ⊆ list_to_set names) before
       ∧ ¬ dom bad ⊆ list_to_set names
       ∧ file run = (Py.lit <$> names) :: (fields_of names <$> before)
       ∧ raised run = Some Py.ValueError).
Proof.
  cbv zeta. pose proof (main_written names companies) as Hw.
  destruct (decide (Forall (λ r, dom r ⊆ list_to_set names)
                      (merged_row <$> companies))) as [Hall|Hn].
  - left.
    rewrite (writerows_all names _ [Py.lit <$> names] Hall) in Hw.
    pose proof (f_equal fst Hw) as Hf. pose proof (f_equal snd Hw) as Hr.
    cbn [fst snd] in Hf, Hr. by rewrite Hf, Hr.
  - right.
    destruct (first_outside _ _ Hn) as (before & bad & rest & Heq & Hb & Hbad).
    exists before, bad, rest. rewrite Heq in Hw |- *.
    rewrite (writerows_stops names before bad rest [Py.lit <$> names] Hb Hbad)
      in Hw.
    pose proof (f_equal fst Hw) as Hf. pose proof (f_equal snd Hw) as Hr.
    cbn [fst snd] in Hf, Hr. by rewrite Hf, Hr.
Qed.

(** With the merge columns in the header and the rows within it, the rows
    after the loop are within the header. *)
Lemma merged_rows_within names companies :
  merge_targets ⊆ list_to_set names →
  Forall (λ r, dom r ⊆ list_to_set names) companies →
  Forall (λ r, dom r ⊆ list_to_set names) (merged_row <$> companies).
Proof.
  intros Hcols Hall. apply Forall_fmap. eapply Forall_impl; [exact Hall |].
  intros company Hc. cbn. rewrite merged_row_dom.
  destruct (decide (eligible company)); [| exact Hc].
  by apply union_least.
Qed.

(** The lines that differ are those of the updated rows, when each of them
    is written with other fields than it was read with. *)
Lemma changed_lines_written names companies (header : list (list N)) :
  Forall (λ c, eligible c →
               fields_of names (merged_row c) ≠ fields_of names c) companies →
  changed_lines names companies
    (header :: (fields_of names <$> (merged_row <$> companies)))
  = length (filter eligible companies).
Proof.
  unfold changed_lines. rewrite skipn_cons, drop_0.
  induction 1 as [|company companies Hc _ IH]; [reflexivity |].
  cbn [fmap list_fmap zip zip_with]. rewrite !filter_cons. cbn [fst snd].
  destruct (decide (eligible company)) as [He|He].
  - rewrite decide_True by (intros Heq; by apply (Hc He)).
    cbn [length]. f_equal. apply IH.
  - rewrite (merged_row_id _ He). rewrite decide_False by (by intros []).
    apply IH.
Qed.

End driver.

(** ** The search for the slug *)

Section slug.

Implicit Types s g rest : list N.

Local Abbreviation marker := (Py.lit "/companies/").

Lemma literal_Some p s rest : Re.literal p s = Some rest ↔ s = p ++ rest.
Proof.
  revert s. induction p as [|a p IH]; intros s; simpl.
  - split; [by intros [= ->] | by intros ->].
  - destruct s as [|c s]; [by split |].
    destruct (N.eqb_spec c a) as [->|Hne].
    + rewrite IH. split; [by intros -> | by intros [= ->]].
    + split; [done | intros [= ? ?]; done].
Qed.

Lemma literal_marker_nil : Re.literal marker [] = None.
Proof. reflexivity. Qed.

Lemma segment_split s :
  ∃ rest, s = Re.segment s ++ rest ∧ (rest = [] ∨ head rest = Some Re.slash).
Proof.
  induction s as [|c s [rest [Hs Hrest]]]; simpl.
  - exists []. by split; [| left].
  - destruct (N.eqb_spec c Re.slash) as [->|Hne].
    + exists (Re.slash :: s). by split; [| right].
    + exists rest. split; [by rewrite Hs at 1 | done].
Qed.

Lemma segment_no_slash s : Re.slash ∉ Re.segment s.
Proof.
  induction s as [|c s IH]; simpl.
  - apply not_elem_of_nil.
  - destruct (N.eqb_spec c Re.slash) as [->|Hne].
    + apply not_elem_of_nil.
    + rewrite not_elem_of_cons. by split.
Qed.

Lemma segment_unique g rest :
  Re.slash ∉ g → rest = [] ∨ head rest = Some Re.slash →
  Re.segment (g ++ rest) = g.
Proof.
  intros Hg Hrest. induction g as [|c g IH]; simpl.
  - destruct Hrest as [->|Hhd]; [done |].
    destruct rest as [|c rest]; [done |]. injection Hhd as ->.
    done.
  - apply not_elem_of_cons in Hg as [Hc Hg].
    destruct (N.eqb_spec c Re.slash) as [->|_]; [done |].
    by rewrite IH.
Qed.

Lemma match_here_Some s g :
  Re.match_here s = Some g ↔
    ∃ rest, s = marker ++ g ++ rest ∧ g ≠ [] ∧ (Re.slash ∉ g)
            ∧ (rest = [] ∨ head rest = Some Re.slash).
Proof.
  unfold Re.match_here.
  destruct (Re.literal marker s) as [r|] eqn:E.
  - apply literal_Some in E. subst s.
    destruct (Re.segment r) as [|c g0] eqn:Eg.
    + split; [done |]. intros (rest' & Heq & Hg & Hs & Hrest').
      apply app_inv_head in Heq.
      rewrite Heq, segment_unique in Eg by done. congruence.
    + split.
      * intros [= <-].
        destruct (segment_split r) as [rest [Hr Hrest]].
        pose proof (segment_no_slash r) as Hns. rewrite Eg in Hr, Hns.
        exists rest. by rewrite <- Hr.
      * intros (rest' & Heq & Hg & Hs & Hrest').
        apply app_inv_head in Heq.
        rewrite Heq, segment_unique in Eg by done. congruence.
  - split; [done |]. intros (rest & Heq & _).
    apply literal_Some in Heq. congruence.
Qed.

Lemma match_here_None s :
  Re.match_here s = None ↔ ∀ c q, s = marker ++ c :: q → c = Re.slash.
Proof.
  split.
  - intros Hn c q Hs. destruct (decide (c = Re.slash)) as [|Hne]; [done |].
    destruct (segment_split (c :: q)) as [rest [Hq Hrest]].
    assert (Re.match_here s = Some (Re.segment (c :: q))) as Hm.
    { apply match_here_Some. exists rest. rewrite <- Hq.
      split; [done |]. split; [| split; [apply segment_no_slash | done]].
      simpl. by destruct (N.eqb_spec c Re.slash). }
    congruence.
  - intros Hall. destruct (Re.match_here s) as [g|] eqn:E; [| done].
    apply match_here_Some in E as (rest & Hs & Hg & Hns & _).
    destruct g as [|c g]; [done |].
    rewrite (Hall c (g ++ rest) Hs) in Hns.
    exfalso. apply Hns. left.
Qed.

Lemma search_unfold s :
  Re.search s =
  match Re.match_here s with
  | Some g => Some g
  | None => match s with [] => None | _ :: s' => Re.search s' end
  end.
Proof. by destruct s. Qed.

Lemma search_Some s g : Re.search s = Some g ↔ captures s g.
Proof.
  split.
  - revert g. induction s as [|a s IH]; intros g.
    + intros Hn. vm_compute in Hn. discriminate Hn.
    + rewrite search_unfold.
      destruct (Re.match_here (a :: s)) as [g'|] eqn:E.
      * intros [= ->]. apply match_here_Some in E as (rest & Hs & Hg & Hns & Hr).
        exists [], rest. repeat split; try done. simpl. lia.
      * intros (pre & rest & Hs & Hg & Hns & Hr & Hleft)%IH.
        exists (a :: pre), rest. repeat split; try done.
        { by rewrite Hs. }
        intros p c q Heq Hc. destruct p as [|a' p].
        -- rewrite match_here_None in E. by apply E in Heq.
        -- injection Heq as -> Heq. simpl.
           apply Hleft in Heq; [lia | done].
  - intros (pre & rest & Hs & Hg & Hns & Hr & Hleft). subst s.
    induction pre as [|a pre IH].
    + rewrite search_unfold.
      assert (Re.match_here ([] ++ marker ++ g ++ rest) = Some g) as ->; [| done].
      apply match_here_Some. by exists rest.
    + rewrite search_unfold.
      destruct (Re.match_here ((a :: pre) ++ marker ++ g ++ rest))
        as [g'|] eqn:E.
      * apply match_here_Some in E as (rest' & Hs' & Hg' & Hns' & _).
        destruct g' as [|c g']; [done |].
        apply not_elem_of_cons in Hns' as [Hc _].
        specialize (Hleft [] c (g' ++ rest') Hs' (λ E, Hc (eq_sym E))).
        simpl in Hleft. lia.
      * simpl. apply IH. intros p c q Heq Hc.
        assert (length (a :: pre) ≤ length (a :: p))%nat as Hle.
        { apply (Hleft (a :: p) c q); [simpl; by f_equal | done]. }
        simpl in Hle. lia.
Qed.

Lemma search_None s :
  Re.search s = None ↔
    ∀ p c q, s = p ++ marker ++ c :: q → c = Re.slash.
Proof.
  induction s as [|a s IH].
  - split; [| done]. intros _ p c q Heq.
    destruct p; discriminate Heq.
  - rewrite search_unfold.
    destruct (Re.match_here (a :: s)) as [g|] eqn:E.
    + split; [done |]. intros Hall.
      apply match_here_Some in E as (rest & Hs & Hg & Hns & _).
      destruct g as [|c g]; [done |].
      rewrite (Hall [] c (g ++ rest) Hs) in Hns.
      exfalso. apply Hns. left.
    + rewrite IH. rewrite match_here_None in E. split.
      * intros Hall p c q Heq. destruct p as [|a' p].
        -- by apply (E c q).
        -- injection Heq as -> Heq. by apply (Hall p c q).
      * intros Hall p c q Heq. apply (Hall (a :: p) c q). by rewrite Heq.
Qed.

End slug.

(** ** The definitions on sample values *)

Example lit_non_ascii :
  Py.lit "âœ… REAL" = [0xE2; 0x153; 0x2026; 32; 82; 69; 65; 76].
Proof. reflexivity. Qed.

Example strip_unicode_space :
  Py.strip ([0xA0; 9] ++ Py.lit "Team" ++ [0x3000; 10]) = Py.lit "Team".
Proof. reflexivity. Qed.

Example strip_inner_space : Py.strip (Py.lit " Ann Lee ") = Py.lit "Ann Lee".
Proof. reflexivity. Qed.

Example slug_with_query :
  GetFoundersFromYc.extract_company_slug
    (Some (Py.lit "https://www.ycombinator.com/companies/doe?batch=s25"))
  = Some (Py.lit "doe?batch=s25").
Proof. vm_compute. reflexivity. Qed.

Example slug_after_empty_segment :
  GetFoundersFromYc.extract_company_slug
    (Some (Py.lit "/companies//companies/doe/jobs"))
  = Some (Py.lit "doe").
Proof. vm_compute. reflexivity. Qed.

Example slug_marker_at_end :
  GetFoundersFromYc.extract_company_slug
    (Some (Py.lit "https://www.ycombinator.com/companies/"))
  = None.
Proof. vm_compute. reflexivity. Qed.

Example table_size : length REAL_FOUNDER_DATA_entries = 75%nat.
Proof. vm_compute. reflexivity. Qed.

Example table_keys_distinct : NoDup (REAL_FOUNDER_DATA_entries.*1).
Proof. apply (bool_decide_unpack _). vm_compute. exact I. Qed.

Example merged_doe_job_openings :
  update_company_with_real_data (delete "job_openings" row_doe) real_doe
    !! "job_openings"
  = Some (Py.lit "Software Engineering Intern, Product Intern").
Proof. rewrite update_job_openings. vm_compute. reflexivity. Qed.

(** The fourth copy of the predicate, in [extract_real_founders.py]. *)
Lemma is_pattern_data_fourth_copy (company : gmap string (list N)) :
  ExtractRealFounders.is_pattern_data company = is_pattern_data company.
Proof. reflexivity. Qed.

(** * The claims *)

(** ** Classification *)

(** C1: [is_pattern_data] is true exactly when the trimmed first name is
    ["Team"] or empty, or the trimmed email starts with ["hello@"], or the
    trimmed LinkedIn value is empty; it is false exactly when none of these
    holds; and a missing field counts as the empty string (the function is
    total, so nothing is raised). *)
Theorem is_pattern_data_spec (company : gmap string (list N)) :
  let first := Py.strip (Py.get company "founder_first_name" []) in
  let email := Py.strip (Py.get company "founder_email" []) in
  let linkedin := Py.strip (Py.get company "founder_linkedin" []) in
  (is_pattern_data company = true ↔
     (first = Py.lit "Team" ∨ first = [])
     ∨ Py.startswith email (Py.lit "hello@") = true
     ∨ linkedin = [])
  ∧ (is_pattern_data company = false ↔
       first ≠ Py.lit "Team" ∧ first ≠ []
       ∧ Py.startswith email (Py.lit "hello@") = false
       ∧ linkedin ≠ [])
  ∧ (∀ k, is_pattern_data (delete k company)
          = is_pattern_data (<[k := []]> company)).
Proof.
  cbv zeta. split; [apply is_pattern_data_true |].
  split; [apply is_pattern_data_false |].
  intros k. apply is_pattern_data_get_ext; unfold Py.get;
    rewrite lookup_delete, lookup_insert; by case_decide.
Qed.

(** C8: two rows with the same [founder_first_name], [founder_email] and
    [founder_linkedin] entries are classified alike, whatever else they
    hold. *)
Theorem is_pattern_data_own_fields (company1 company2 : gmap string (list N)) :
  company1 !! "founder_first_name" = company2 !! "founder_first_name" →
  company1 !! "founder_email" = company2 !! "founder_email" →
  company1 !! "founder_linkedin" = company2 !! "founder_linkedin" →
  is_pattern_data company1 = is_pattern_data company2.
Proof. apply is_pattern_data_ext. Qed.

Lemma is_pattern_data_own_fields_witness :
  is_pattern_data row_doe
  = is_pattern_data (<["Company_Name" := Py.lit "Other"]> (delete "website" row_doe)).
Proof.
  apply (is_pattern_data_own_fields row_doe
           (<["Company_Name" := Py.lit "Other"]> (delete "website" row_doe)));
    reflexivity.
Defined.

(** C9: the three copies of the predicate agree: [is_pattern_data] of
    [batch_extract_founders.py] and of [get_founders_from_yc.py] return the
    same value, and the if/elif chain of [find_founders_batch.py] appends the
    row exactly when they return true, so that the function selects the rows
    they classify as pattern data, in order. *)
Theorem is_pattern_data_copies_agree (company : gmap string (list N)) :
  BatchExtractFounders.is_pattern_data company
  = GetFoundersFromYc.is_pattern_data company
  ∧ (∀ companies,
       FindFoundersBatch.select companies company
       = if BatchExtractFounders.is_pattern_data company
         then companies ++ [company] else companies)
  ∧ (∀ reader,
       FindFoundersBatch.get_companies_needing_founders reader
       = filter (λ c, BatchExtractFounders.is_pattern_data c = true) reader).
Proof.
  split; [reflexivity |]. split; [apply select_spec |].
  apply get_companies_needing_founders_spec.
Qed.

(** ** The merge *)

(** C2, as the code has it: each of [job_openings], [funding_stage],
    [amount_raised] and [date_raised] keeps the value the row has for it
    whenever the key is present, the empty string included, and takes the
    fixed default only when the key is missing from the row. *)
Theorem update_defaults (company : gmap string (list N)) (real_data : RealData) :
  let merged := update_company_with_real_data company real_data in
  merged !! "job_openings"
  = Some (match company !! "job_openings" with
          | Some existing => existing
          | None => Py.lit "Software Engineering Intern, Product Intern"
          end)
  ∧ merged !! "funding_stage"
    = Some (match company !! "funding_stage" with
            | Some existing => existing
            | None => Py.lit "Seed"
            end)
  ∧ merged !! "amount_raised"
    = Some (match company !! "amount_raised" with
            | Some existing => existing
            | None => Py.lit "$1.5M"
            end)
  ∧ merged !! "date_raised"
    = Some (match company !! "date_raised" with
            | Some existing => existing
            | None => Py.lit "Summer 2025"
            end).
Proof.
  cbv zeta.
  rewrite update_job_openings, update_funding_stage, update_amount_raised,
    update_date_raised.
  done.
Qed.

(** C2, as the claim states it, fails: a row whose [job_openings] is the
    empty string keeps the empty string through the merge and does not get
    the default. *)
Lemma update_keeps_empty_job_openings :
  row_doe !! "job_openings" = Some []
  ∧ update_company_with_real_data row_doe real_doe !! "job_openings" = Some []
  ∧ update_company_with_real_data row_doe real_doe !! "job_openings"
    ≠ Some (Py.lit "Software Engineering Intern, Product Intern").
Proof.
  split; [reflexivity |].
  rewrite update_job_openings. split; [reflexivity | discriminate].
Qed.

(** C4: merging the same table entry a second time changes nothing. *)
Theorem update_idempotent (company : gmap string (list N)) (real_data : RealData) :
  update_company_with_real_data
    (update_company_with_real_data company real_data) real_data
  = update_company_with_real_data company real_data.
Proof. apply update_twice. Qed.

(** C5: the call builds a new dictionary and leaves every dictionary of the
    store, the argument among them, as it was; in the new dictionary every
    key outside the ten written ones has the entry of the argument, and the
    keys are those of the argument and the ten written ones. *)
Theorem update_frame
    (heap : gmap positive (gmap string (list N))) (company : positive)
    (d : gmap string (list N)) (real_data : RealData) :
  heap !! company = Some d →
  ∃ new heap',
    update_company_with_real_data_ref heap company real_data
    = Some (new, heap')
    ∧ heap !! new = None
    ∧ heap' !! new = Some (update_company_with_real_data d real_data)
    ∧ heap' !! company = Some d
    ∧ (∀ l, l ≠ new → heap' !! l = heap !! l)
    ∧ (∀ k, k ∉ merge_targets →
            update_company_with_real_data d real_data !! k = d !! k)
    ∧ dom (update_company_with_real_data d real_data)
      = dom d ∪ merge_targets.
Proof.
  intros Hd. unfold update_company_with_real_data_ref. rewrite Hd.
  assert (heap !! fresh (dom heap) = None) as Hnew.
  { apply not_elem_of_dom. apply is_fresh. }
  eexists _, _. split; [reflexivity |]. split; [done |].
  split; [apply lookup_insert_eq |].
  split; [rewrite lookup_insert_ne; [done | congruence] |].
  split; [intros l Hl; by rewrite lookup_insert_ne |].
  split; [intros k; apply update_other | apply update_dom].
Qed.

Lemma update_frame_witness :
  ∃ new heap',
    update_company_with_real_data_ref {[ 1%positive := row_doe ]} 1 real_doe
    = Some (new, heap')
    ∧ ({[ 1%positive := row_doe ]} : gmap positive (gmap string (list N)))
        !! new = None
    ∧ heap' !! new = Some (update_company_with_real_data row_doe real_doe)
    ∧ heap' !! 1%positive = Some row_doe
    ∧ (∀ l, l ≠ new →
            heap' !! l
            = ({[ 1%positive := row_doe ]}
                : gmap positive (gmap string (list N))) !! l)
    ∧ (∀ k, k ∉ merge_targets →
            update_company_with_real_data row_doe real_doe !! k
            = row_doe !! k)
    ∧ dom (update_company_with_real_data row_doe real_doe)
      = dom row_doe ∪ merge_targets.
Proof.
  apply (update_frame {[ 1%positive := row_doe ]} 1 row_doe real_doe).
  reflexivity.
Defined.

(** C10: whatever the row, merging an entry of [REAL_FOUNDER_DATA] gives a
    row that is not classified as pattern data, because the entry has a
    first name that is neither empty nor ["Team"], an email that does not
    start with ["hello@"] and a LinkedIn value that is not empty. *)
Theorem update_is_real
    (company : gmap string (list N)) (name : list N) (real_data : RealData) :
  REAL_FOUNDER_DATA !! name = Some real_data →
  is_pattern_data (update_company_with_real_data company real_data) = false
  ∧ Py.strip (founder_first real_data) ≠ Py.lit "Team"
  ∧ Py.strip (founder_first real_data) ≠ []
  ∧ Py.startswith (Py.strip (founder_email real_data)) (Py.lit "hello@")
    = false
  ∧ Py.strip (founder_linkedin real_data) ≠ [].
Proof.
  intros Hreal%table_real.
  split; [by rewrite is_pattern_data_update |].
  apply is_pattern_data_false in Hreal.
  rewrite (get_present _ _ _ _ (update_first_name ∅ real_data)),
    (get_present _ _ _ _ (update_email ∅ real_data)),
    (get_present _ _ _ _ (update_linkedin ∅ real_data)) in Hreal.
  exact Hreal.
Qed.

Lemma update_is_real_witness :
  REAL_FOUNDER_DATA !! Py.lit "Doe" = Some real_doe
  ∧ is_pattern_data (update_company_with_real_data row_doe real_doe) = false.
Proof.
  assert (REAL_FOUNDER_DATA !! Py.lit "Doe" = Some real_doe) as Hdoe
    by (vm_compute; reflexivity).
  split; [exact Hdoe |].
  exact (proj1 (update_is_real row_doe (Py.lit "Doe") real_doe Hdoe)).
Defined.

(** ** The slug *)

(** C6: [extract_company_slug] returns [None] for [None] and for the empty
    string; for a string it returns the run captured after [/companies/],
    character for character, when there is one, and [None] when no
    [/companies/] is followed by a character other than [/]; being a total
    function it raises nothing, both scripts define the same function, and
    the three sample links give ["acme-inc"], [None] and [None]. *)
Theorem extract_company_slug_spec :
  GetFoundersFromYc.extract_company_slug None = None
  ∧ GetFoundersFromYc.extract_company_slug (Some []) = None
  ∧ (∀ s g,
       GetFoundersFromYc.extract_company_slug (Some s) = Some g
       ↔ captures s g)
  ∧ (∀ s,
       GetFoundersFromYc.extract_company_slug (Some s) = None
       ↔ ∀ p c q, s = p ++ Py.lit "/companies/" ++ c :: q → c = Re.slash)
  ∧ (∀ yc_link,
       ExtractRealFounders.extract_company_slug yc_link
       = GetFoundersFromYc.extract_company_slug yc_link)
  ∧ GetFoundersFromYc.extract_company_slug
      (Some (Py.lit "https://example.com/companies/acme-inc"))
    = Some (Py.lit "acme-inc")
  ∧ GetFoundersFromYc.extract_company_slug (Some (Py.lit "")) = None
  ∧ GetFoundersFromYc.extract_company_slug
      (Some (Py.lit "https://example.com/about"))
    = None.
Proof.
  assert (∀ s, GetFoundersFromYc.extract_company_slug (Some s) = Re.search s)
    as Hsearch.
  { intros [|c s]; reflexivity. }
  split; [reflexivity |]. split; [reflexivity |].
  split; [intros s g; rewrite Hsearch; apply search_Some |].
  split; [intros s; rewrite Hsearch; apply search_None |].
  split; [reflexivity |].
  repeat split; vm_compute; reflexivity.
Qed.

(** ** The batch driver *)

(** C7, at an input where the code fails it: the three sample rows, read
    under their own header of nine columns, are rows of a well-formed file;
    the row of ["Doe"] is updated, the merge gives it the three columns the
    header lacks, and [DictWriter] raises [ValueError] on it.  The file,
    opened for writing, is left with the header and the one row that came
    before, not with three rows, and [main] ends before its summary. *)
Theorem main_raises_on_missing_columns :
  let rows := [row_real; row_doe; row_nobody] in
  let run := main (Some nine_columns) rows in
  Forall (λ r, dom r = list_to_set nine_columns) rows
  ∧ eligible row_doe
  ∧ raised run = Some Py.ValueError
  ∧ file run = [Py.lit <$> nine_columns; fields_of nine_columns row_real]
  ∧ length (printed run) = 7%nat.
Proof.
  cbv zeta. split; [apply (bool_decide_unpack _); vm_compute; exact I |].
  split; [apply (bool_decide_unpack _); vm_compute; exact I |].
  repeat split; vm_compute; reflexivity.
Qed.

(** C3, as the code has it by design: on a file whose header has the ten
    columns of the merge and whose three rows, in any order, are one of
    guessed data whose company is in the table, one of guessed data whose
    company is not, and one of researched data, [main] raises nothing,
    counts three rows and one update, leaves one row classified as pattern
    data and reports two rows of real data (the updated row counts as
    real); the file holds the header and three lines, one of which differs
    from the row read at the same place, and the summary printed shows 3, 2
    and 1. *)
Theorem main_three_rows
    (fieldnames : list string) (rows : list (gmap string (list N)))
    (r1 r2 r3 : gmap string (list N)) (real_data : RealData) :
  rows ≡ₚ [r1; r2; r3] →
  merge_targets ⊆ list_to_set fieldnames →
  Forall (λ r, dom r ⊆ list_to_set fieldnames) rows →
  is_pattern_data r1 = true →
  REAL_FOUNDER_DATA !! company_name_of r1 = Some real_data →
  is_pattern_data r2 = true →
  REAL_FOUNDER_DATA !! company_name_of r2 = None →
  is_pattern_data r3 = false →
  let run := main (Some fieldnames) rows in
  raised run = None
  ∧ total run = 3%nat
  ∧ updated_count run = 1%nat
  ∧ pattern_count run = 1%nat
  ∧ real_count run = 2%nat
  ∧ length (file run) = 4%nat
  ∧ changed_lines fieldnames rows (file run) = 1%nat
  ∧ ∃ before, printed run = before ++ summary 3 2 1.
Proof.
  intros Hperm Hcols Hrows Hp1 Ht1 Hp2 Ht2 Hp3.
  assert (eligible r1) as He1 by (split; [by rewrite Ht1 | done]).
  assert (¬ eligible r2) as He2.
  { intros [[? Hs] _]. congruence. }
  assert (¬ eligible r3) as He3.
  { intros [_ ?]. congruence. }
  assert (length rows = 3%nat) as Hlen by (by rewrite Hperm).
  assert (length (filter eligible rows) = 1%nat) as Hupd.
  { rewrite Hperm, !filter_cons, filter_nil.
    by rewrite decide_True, !decide_False by done. }
  assert (length (filter (λ c, is_pattern_data c = true) (merged_row <$> rows))
          = 1%nat) as Hpat.
  { rewrite Hperm. cbn [fmap list_fmap]. rewrite !filter_cons, filter_nil.
    rewrite (decide_False (P := is_pattern_data (merged_row r1) = true)).
    2:{ rewrite merged_row_pattern. intros [_ ?]. congruence. }
    rewrite (decide_True (P := is_pattern_data (merged_row r2) = true)).
    2:{ rewrite merged_row_pattern. split; assumption. }
    rewrite (decide_False (P := is_pattern_data (merged_row r3) = true)).
    2:{ rewrite merged_row_pattern. intros [? _]. congruence. }
    done. }
  cbv zeta.
  pose proof (main_printed (Some fieldnames) rows) as (before & _ & Hprinted).
  pose proof (main_real_count (Some fieldnames) rows) as Hreal.
  rewrite main_total, main_updated_count, main_pattern_count, Hupd, Hpat.
  rewrite main_total, main_pattern_count, Hpat in Hprinted.
  rewrite main_pattern_count, Hpat, Hlen in Hreal.
  rewrite Hreal in Hprinted |- *. rewrite Hlen in Hprinted |- *.
  destruct (main_write_cases fieldnames rows)
    as [(_ & Hfile & Hraised) | (b & bad & rest & Heq & _ & Hbad & _)].
  - rewrite Hraised in Hprinted |- *. rewrite Hfile.
    rewrite changed_lines_written, Hupd.
    + cbn [length]. rewrite !length_fmap, Hlen.
      clear -Hprinted. repeat (split; [reflexivity |]).
      exists before. exact Hprinted.
    + apply Forall_forall. intros c _ He. by apply merged_row_fields.
  - exfalso. apply Hbad.
    pose proof (merged_rows_within fieldnames rows Hcols Hrows) as Hall.
    rewrite Heq in Hall. apply Forall_app in Hall as [_ Hall].
    by apply Forall_cons in Hall as [? _].
Qed.

Lemma main_three_rows_witness :
  let rows :=
    [with_funding row_real; with_funding row_doe; with_funding row_nobody] in
  let run := main (Some twelve_columns) rows in
  raised run = None
  ∧ total run = 3%nat
  ∧ updated_count run = 1%nat
  ∧ pattern_count run = 1%nat
  ∧ real_count run = 2%nat
  ∧ length (file run) = 4%nat
  ∧ changed_lines twelve_columns rows (file run) = 1%nat
  ∧ ∃ before, printed run = before ++ summary 3 2 1.
Proof.
  apply (main_three_rows twelve_columns
           [with_funding row_real; with_funding row_doe;
            with_funding row_nobody]
           (with_funding row_doe) (with_funding row_nobody)
           (with_funding row_real) real_doe).
  - apply Permutation_sym.
    apply perm_trans
      with [with_funding row_doe; with_funding row_real;
            with_funding row_nobody].
    + apply perm_skip, perm_swap.
    + apply perm_swap.
  - apply (bool_decide_unpack _). vm_compute. exact I.
  - apply (bool_decide_unpack _). vm_compute. exact I.
  - vm_compute; reflexivity.
  - vm_compute; reflexivity.
  - vm_compute; reflexivity.
  - vm_compute; reflexivity.
  - vm_compute; reflexivity.
Defined.

(** C3, as the claim states it, fails: on such a file, where [main] writes
    its three rows and prints its summary, the summary has two rows of real
    data, not one. *)
Lemma main_three_rows_real_count :
  let rows :=
    [with_funding row_doe; with_funding row_nobody; with_funding row_real] in
  let run := main (Some twelve_columns) rows in
  Forall (λ r, dom r = list_to_set twelve_columns) rows
  ∧ is_pattern_data (with_funding row_doe) = true
  ∧ REAL_FOUNDER_DATA !! company_name_of (with_funding row_doe)
    = Some real_doe
  ∧ is_pattern_data (with_funding row_nobody) = true
  ∧ REAL_FOUNDER_DATA !! company_name_of (with_funding row_nobody) = None
  ∧ is_pattern_data (with_funding row_real) = false
  ∧ raised run = None
  ∧ length (file run) = 4%nat
  ∧ (total run, updated_count run, pattern_count run, real_count run)
    = (3%nat, 1%nat, 1%nat, 2%nat)
  ∧ (∃ before, printed run = before ++ summary 3 2 1)
  ∧ real_count run ≠ 1%nat.
Proof.
  cbv zeta. split; [apply (bool_decide_unpack _); vm_compute; exact I |].
  repeat (split; [vm_compute; reflexivity |]). split.
  - pose proof (main_printed (Some twelve_columns)
                  [with_funding row_doe; with_funding row_nobody;
                   with_funding row_real]) as (before & _ & Hprinted).
    exists before. rewrite Hprinted. f_equal; vm_compute; reflexivity.
  - vm_compute. discriminate.
Qed.

(** * Further properties of the scripts *)

(** ** White space around a field *)

Section padding.

Implicit Types s l r : list N.

Lemma lstrip_spaces l s :
  Forall (λ c, Py.isspace c = true) l → Py.lstrip (l ++ s) = Py.lstrip s.
Proof.
  induction 1 as [|c l Hc _ IH]; [done |]. simpl. by rewrite Hc.
Qed.

Lemma lstrip_all_spaces l :
  Forall (λ c, Py.isspace c = true) l → Py.lstrip l = [].
Proof.
  intros Hl. rewrite <- (app_nil_r l). by rewrite lstrip_spaces.
Qed.

Lemma lstrip_app s r :
  Py.lstrip (s ++ r)
  = match Py.lstrip s with
    | [] => Py.lstrip r
    | c :: t => (c :: t) ++ r
    end.
Proof.
  induction s as [|c s IH]; simpl.
  - by destruct (Py.lstrip r).
  - by destruct (Py.isspace c).
Qed.

Lemma rstrip_spaces s r :
  Forall (λ c, Py.isspace c = true) r → Py.rstrip (s ++ r) = Py.rstrip s.
Proof.
  intros Hr. unfold Py.rstrip.
  rewrite reverse_app, lstrip_spaces; [done |]. by apply Forall_reverse.
Qed.

Lemma strip_pad l s r :
  Forall (λ c, Py.isspace c = true) l →
  Forall (λ c, Py.isspace c = true) r →
  Py.strip (l ++ s ++ r) = Py.strip s.
Proof.
  intros Hl Hr. unfold Py.strip.
  rewrite lstrip_spaces, lstrip_app by done.
  destruct (Py.lstrip s) as [|c t].
  - by rewrite lstrip_all_spaces.
  - by rewrite rstrip_spaces.
Qed.

Lemma strip_nil s :
  Py.strip s = [] ↔ Forall (λ c, Py.isspace c = true) s.
Proof.
  split.
  - intros Hs. destruct (strip_spec s) as (l & r & Heq & Hl & Hr & _).
    rewrite Hs in Heq. rewrite Heq. apply Forall_app. by split.
  - intros Hs. unfold Py.strip. by rewrite lstrip_all_spaces.
Qed.

(** The classification reads the three fields after [strip]. *)
Lemma is_pattern_data_strip_ext (company1 company2 : gmap string (list N)) :
  Py.strip (Py.get company1 "founder_first_name" [])
  = Py.strip (Py.get company2 "founder_first_name" []) →
  Py.strip (Py.get company1 "founder_email" [])
  = Py.strip (Py.get company2 "founder_email" []) →
  Py.strip (Py.get company1 "founder_linkedin" [])
  = Py.strip (Py.get company2 "founder_linkedin" []) →
  is_pattern_data company1 = is_pattern_data company2.
Proof.
  intros H1 H2 H3. unfold is_pattern_data. by rewrite H1, H2, H3.
Qed.

End padding.

(** X1: white space added before and after the value of any field does not
    change the classification of the row. *)
Theorem is_pattern_data_padding
    (company : gmap string (list N)) (k : string) (l v r : list N) :
  Forall (λ c, Py.isspace c = true) l →
  Forall (λ c, Py.isspace c = true) r →
  is_pattern_data (<[k := l ++ v ++ r]> company)
  = is_pattern_data (<[k := v]> company).
Proof.
  intros Hl Hr. apply is_pattern_data_strip_ext; unfold Py.get;
    rewrite !lookup_insert; case_decide; rewrite ?strip_pad by done;
    reflexivity.
Qed.

Lemma is_pattern_data_padding_witness :
  is_pattern_data
    (<["founder_first_name" := [32; 9] ++ Py.lit "Bob" ++ [10]]> row_real)
  = is_pattern_data (<["founder_first_name" := Py.lit "Bob"]> row_real).
Proof.
  apply (is_pattern_data_padding row_real "founder_first_name"
           [32; 9] (Py.lit "Bob") [10]).
  - repeat constructor.
  - repeat constructor.
Defined.

(** X2: a row whose first name, or whose LinkedIn value, is made of white
    space only is classified as pattern data, like a row where it is empty
    or missing. *)
Theorem is_pattern_data_blank (company : gmap string (list N)) :
  Forall (λ c, Py.isspace c = true) (Py.get company "founder_first_name" [])
  ∨ Forall (λ c, Py.isspace c = true) (Py.get company "founder_linkedin" []) →
  is_pattern_data company = true.
Proof.
  intros H. apply is_pattern_data_true.
  destruct H as [H|H]; apply strip_nil in H; tauto.
Qed.

Lemma is_pattern_data_blank_witness :
  is_pattern_data (<["founder_linkedin" := [32; 0xA0; 9]]> row_real) = true.
Proof.
  apply is_pattern_data_blank. right.
  unfold Py.get. rewrite lookup_insert_eq. repeat constructor.
Defined.

(** ** More on the merge *)

Section merge_more.

Implicit Types company : gmap string (list N).
Implicit Types real_data : RealData.

Lemma not_merge_target k :
  k ∉ merge_targets →
  "data_quality" ≠ k ∧ "date_raised" ≠ k ∧ "amount_raised" ≠ k
  ∧ "funding_stage" ≠ k ∧ "job_openings" ≠ k ∧ "website" ≠ k
  ∧ "founder_linkedin" ≠ k ∧ "founder_email" ≠ k
  ∧ "founder_last_name" ≠ k ∧ "founder_first_name" ≠ k.
Proof.
  intros Hk.
  repeat split; intros <-; apply Hk; unfold merge_targets;
    rewrite !elem_of_union, !elem_of_singleton; tauto.
Qed.

Lemma merged_row_other company k :
  k ∉ merge_targets → merged_row company !! k = company !! k.
Proof.
  intros Hk. unfold merged_row.
  destruct (REAL_FOUNDER_DATA !! company_name_of company); [| reflexivity].
  destruct (is_pattern_data company); [| reflexivity].
  by apply update_other.
Qed.

End merge_more.

(** X3: a second merge replaces the first: merging one table entry and then
    another gives what merging the second alone gives. *)
Theorem update_last_wins
    (company : gmap string (list N)) (real_data1 real_data2 : RealData) :
  update_company_with_real_data
    (update_company_with_real_data company real_data1) real_data2
  = update_company_with_real_data company real_data2.
Proof.
  apply map_eq. intros k.
  rewrite (update_lookup (update_company_with_real_data _ _)).
  rewrite (get_present _ _ _ _ (update_job_openings company real_data1)).
  rewrite (get_present _ _ _ _ (update_funding_stage company real_data1)).
  rewrite (get_present _ _ _ _ (update_amount_raised company real_data1)).
  rewrite (get_present _ _ _ _ (update_date_raised company real_data1)).
  rewrite !update_lookup. by repeat case_decide.
Qed.

(** X4: the table entry can be read back from the merged row, whatever the
    row held: the five founder fields are the five values of the entry, so
    two merges that give the same row merged the same entry. *)
Theorem update_entry_read_back
    (company1 company2 : gmap string (list N)) (real_data1 real_data2 : RealData) :
  update_company_with_real_data company1 real_data1
  = update_company_with_real_data company2 real_data2 →
  real_data1 = real_data2
  ∧ update_company_with_real_data company1 real_data1
    !! "founder_first_name" = Some (founder_first real_data2)
  ∧ update_company_with_real_data company1 real_data1
    !! "founder_last_name" = Some (founder_last real_data2)
  ∧ update_company_with_real_data company1 real_data1
    !! "founder_email" = Some (founder_email real_data2)
  ∧ update_company_with_real_data company1 real_data1
    !! "founder_linkedin" = Some (founder_linkedin real_data2)
  ∧ update_company_with_real_data company1 real_data1
    !! "website" = Some (website real_data2).
Proof.
  intros Heq.
  pose proof (update_first_name company1 real_data1) as H1.
  pose proof (update_last_name company1 real_data1) as H2.
  pose proof (update_email company1 real_data1) as H3.
  pose proof (update_linkedin company1 real_data1) as H4.
  pose proof (update_website company1 real_data1) as H5.
  rewrite Heq in H1, H2, H3, H4, H5.
  rewrite update_first_name in H1. rewrite update_last_name in H2.
  rewrite update_email in H3. rewrite update_linkedin in H4.
  rewrite update_website in H5.
  injection H1 as H1. injection H2 as H2. injection H3 as H3.
  injection H4 as H4. injection H5 as H5.
  rewrite Heq, update_first_name, update_last_name, update_email,
    update_linkedin, update_website.
  split; [| repeat split].
  destruct real_data1, real_data2. simpl in *. congruence.
Qed.

Lemma update_entry_read_back_witness :
  update_company_with_real_data row_doe real_doe !! "founder_email"
  = Some (founder_email real_doe).
Proof.
  exact (proj1 (proj2 (proj2 (proj2
           (update_entry_read_back row_doe row_doe real_doe real_doe
              eq_refl))))).
Defined.

(** X5: the merge commutes with setting or deleting a key that is not one of
    the ten it writes. *)
Theorem update_commutes_outside
    (company : gmap string (list N)) (real_data : RealData)
    (k : string) (v : list N) :
  k ∉ merge_targets →
  update_company_with_real_data (<[k := v]> company) real_data
  = <[k := v]> (update_company_with_real_data company real_data)
  ∧ update_company_with_real_data (delete k company) real_data
    = delete k (update_company_with_real_data company real_data).
Proof.
  intros (H1 & H2 & H3 & H4 & H5 & H6 & H7 & H8 & H9 & H10)%not_merge_target.
  split; apply map_eq; intros j.
  - rewrite lookup_insert, !update_lookup. unfold Py.get.
    rewrite !lookup_insert_ne by done. rewrite lookup_insert.
    repeat case_decide; simplify_eq; reflexivity.
  - rewrite lookup_delete, !update_lookup. unfold Py.get.
    rewrite !lookup_delete_ne by done. rewrite lookup_delete.
    repeat case_decide; simplify_eq; reflexivity.
Qed.

Lemma update_commutes_outside_witness :
  update_company_with_real_data
    (<["YC_Link" := Py.lit "https://example.com/companies/doe"]> row_doe)
    real_doe
  = <["YC_Link" := Py.lit "https://example.com/companies/doe"]>
      (update_company_with_real_data row_doe real_doe).
Proof.
  apply (update_commutes_outside row_doe real_doe "YC_Link").
  unfold merge_targets. rewrite !elem_of_union, !elem_of_singleton.
  intros H. repeat destruct H as [H|H]; discriminate H.
Defined.

(** ** More on the loop of [main] and on the write *)

Section driver_more.

Implicit Types companies : list (gmap string (list N)).
Implicit Types company : gmap string (list N).

(** Every row of guessed data is either updated or still of guessed data
    after the loop. *)
Lemma pattern_rows_split companies :
  (length (filter eligible companies)
   + length (filter (λ c, is_pattern_data c = true) (merged_row <$> companies))
   = length (filter (λ c, is_pattern_data c = true) companies))%nat.
Proof.
  induction companies as [|company companies IH]; [reflexivity |].
  cbn [fmap list_fmap]. rewrite !filter_cons.
  destruct (decide (eligible company)) as [He|He].
  - destruct He as [Hin Hp].
    rewrite (decide_True (P := is_pattern_data company = true)) by exact Hp.
    rewrite (decide_False (P := is_pattern_data (merged_row company) = true)).
    + simpl. f_equal. apply IH.
    + rewrite merged_row_pattern. intros [_ Hnone].
      destruct Hin as [? Hs]. congruence.
  - rewrite (merged_row_id _ He).
    destruct (decide (is_pattern_data company = true)); simpl;
      [rewrite Nat.add_succ_r; f_equal |]; apply IH.
Qed.

(** The rows of guessed data after the loop are those of the input with no
    table entry, as they were and in their order. *)
Lemma filter_pattern_after_loop companies :
  filter (λ c, is_pattern_data c = true) (merged_row <$> companies)
  = filter (λ c, is_pattern_data c = true
                 ∧ REAL_FOUNDER_DATA !! company_name_of c = None) companies.
Proof.
  induction companies as [|company companies IH]; [reflexivity |].
  cbn [fmap list_fmap]. rewrite !filter_cons, IH.
  destruct (decide (is_pattern_data company = true
                    ∧ REAL_FOUNDER_DATA !! company_name_of company = None))
    as [Hc|Hc].
  - rewrite decide_True by (by apply merged_row_pattern).
    f_equal. apply merged_row_id. intros [[? Hs] _]. destruct Hc. congruence.
  - rewrite decide_False; [reflexivity |]. by rewrite merged_row_pattern.
Qed.

Lemma fmap_merged_row_id companies :
  length (filter eligible companies) = 0%nat →
  merged_row <$> companies = companies.
Proof.
  induction companies as [|company companies IH]; [done |].
  cbn [fmap list_fmap]. rewrite filter_cons.
  destruct (decide (eligible company)) as [He|He]; [discriminate |].
  intros H0. by rewrite (merged_row_id _ He), IH.
Qed.

(** A line equal to the fields of the row read is not a changed line. *)
Lemma changed_lines_none (names : list string) companies (header : list (list N)) :
  changed_lines names companies (header :: (fields_of names <$> companies))
  = 0%nat.
Proof.
  unfold changed_lines. rewrite skipn_cons, drop_0.
  induction companies as [|company companies IH]; [reflexivity |].
  cbn [fmap list_fmap zip zip_with]. rewrite filter_cons. cbn [fst snd].
  rewrite decide_False by (by intros []). apply IH.
Qed.

(** When nothing is raised, each updated row has the merge columns in the
    header, and so is written with other fields than it was read with. *)
Lemma completed_fields (names : list string) companies :
  Forall (λ r, dom r ⊆ list_to_set names) (merged_row <$> companies) →
  Forall (λ c, eligible c →
               fields_of names (merged_row c) ≠ fields_of names c) companies.
Proof.
  intros Hall. apply Forall_fmap in Hall.
  eapply Forall_impl; [exact Hall |]. intros c Hc He. cbn in Hc.
  apply merged_row_fields; [exact He |].
  rewrite merged_row_dom, decide_True in Hc by exact He.
  intros k Hk. apply Hc. apply elem_of_union. by right.
Qed.

End driver_more.

Lemma filter_bool_split {A} (f : A → bool) (l : list A) :
  (length (filter (λ x, f x = true) l) + length (filter (λ x, f x = false) l)
   = length l)%nat.
Proof.
  induction l as [|x l IH]; [reflexivity |].
  rewrite !filter_cons. destruct (f x) eqn:Hx.
  - rewrite decide_True, decide_False by done. simpl. by rewrite IH.
  - rewrite decide_False, decide_True by done. simpl.
    by rewrite Nat.add_succ_r, IH.
Qed.

(** X6: the counts of a run fit together: the rows reported as real and as
    pattern data add up to the total; the rows updated and the rows still
    of pattern data are the rows that were of pattern data in the input; the
    rows reported as real are those that were real plus those updated. *)
Theorem main_counts (fieldnames : option (list string))
    (companies : list (gmap string (list N))) :
  let run := main fieldnames companies in
  total run = length companies
  ∧ (real_count run + pattern_count run = total run)%nat
  ∧ (updated_count run + pattern_count run
     = length (filter (λ c, is_pattern_data c = true) companies))%nat
  ∧ (real_count run
     = length (filter (λ c, is_pattern_data c = false) companies)
       + updated_count run)%nat.
Proof.
  cbv zeta.
  rewrite main_real_count, main_total, main_updated_count, main_pattern_count.
  pose proof (pattern_rows_split companies) as Hsplit.
  pose proof (filter_bool_split is_pattern_data companies) as Hall.
  pose proof (length_filter (λ c, is_pattern_data c = true)
                (merged_row <$> companies)) as Hle.
  rewrite length_fmap in Hle. clear -Hsplit Hall Hle. lia.
Qed.

(** X8: when a run raises nothing, the line written for each row has, in
    every column that is not one of the ten keys of the merge, the value
    read for that column (the empty string if the row had none); the company
    name and the link are such columns. *)
Theorem main_keeps_other_columns
    (fieldnames : list string) (companies : list (gmap string (list N)))
    (i j : nat) (company : gmap string (list N)) (k : string) :
  raised (main (Some fieldnames) companies) = None →
  companies !! i = Some company →
  fieldnames !! j = Some k →
  k ∉ merge_targets →
  ∃ line,
    file (main (Some fieldnames) companies) !! S i = Some line
    ∧ line !! j = Some (Py.get company k []).
Proof.
  intros Hraised Hi Hj Hk.
  destruct (main_write_cases fieldnames companies)
    as [(_ & Hfile & _) | (b & bad & rest & _ & _ & _ & _ & Hr)];
    [| congruence].
  exists (fields_of fieldnames (merged_row company)). split.
  - rewrite Hfile.
    change ((fields_of fieldnames <$> (merged_row <$> companies)) !! i
            = Some (fields_of fieldnames (merged_row company))).
    by rewrite !list_lookup_fmap, Hi.
  - unfold fields_of. rewrite list_lookup_fmap, Hj. cbn.
    unfold Py.get. by rewrite merged_row_other.
Qed.

Lemma main_keeps_other_columns_witness :
  ∃ line,
    file (main (Some twelve_columns)
            [with_funding row_doe; with_funding row_nobody;
             with_funding row_real]) !! 1%nat = Some line
    ∧ line !! 0%nat = Some (Py.get (with_funding row_doe) "Company_Name" []).
Proof.
  apply (main_keeps_other_columns twelve_columns
           [with_funding row_doe; with_funding row_nobody;
            with_funding row_real] 0 0 (with_funding row_doe)
           "Company_Name").
  - vm_compute. reflexivity.
  - reflexivity.
  - reflexivity.
  - unfold merge_targets. rewrite !elem_of_union, !elem_of_singleton.
    intros H. repeat destruct H as [H|H]; discriminate H.
Defined.

(** X9: the two counts of a run, row by row: [updated_count] is the number
    of rows read that are of pattern data and whose company is a key of the
    table, [pattern_count] the number of those that are of pattern data and
    whose company is not; and one line is printed for each updated row, in
    the order of the file, after the five lines of the heading. *)
Theorem main_counts_by_kind (fieldnames : option (list string))
    (companies : list (gmap string (list N))) :
  let run := main fieldnames companies in
  updated_count run
  = length (filter (λ c, is_Some (REAL_FOUNDER_DATA !! company_name_of c)
                         ∧ is_pattern_data c = true) companies)
  ∧ pattern_count run
    = length (filter (λ c, is_pattern_data c = true
                           ∧ REAL_FOUNDER_DATA !! company_name_of c = None)
                companies)
  ∧ ∃ heading rest,
      length heading = 5%nat
      ∧ printed run
        = heading
          ++ ((λ c, updated_line (Py.get c "Company_Name" []))
                <$> filter (λ c, is_Some (REAL_FOUNDER_DATA
                                            !! company_name_of c)
                                 ∧ is_pattern_data c = true) companies)
          ++ rest.
Proof.
  cbv zeta. rewrite main_updated_count, main_pattern_count.
  rewrite filter_pattern_after_loop.
  split; [reflexivity |]. split; [reflexivity |].
  unfold main. rewrite main_loop_spec. cbn [printed fst snd].
  destruct (snd _); rewrite <- !app_assoc;
    eexists [_; _; _; _; _], _; (split; [reflexivity |]); reflexivity.
Qed.

(** X10: when a run raises nothing, the file holds the header and one line
    for each row read; the lines that differ from the fields of the row
    read at the same place are as many as [updated_count], and the lines are
    those of the rows read exactly when [updated_count] is 0. *)
Theorem main_changed_lines
    (fieldnames : list string) (companies : list (gmap string (list N))) :
  raised (main (Some fieldnames) companies) = None →
  let run := main (Some fieldnames) companies in
  length (file run) = S (length companies)
  ∧ changed_lines fieldnames companies (file run) = updated_count run
  ∧ (drop 1 (file run) = fields_of fieldnames <$> companies
     ↔ updated_count run = 0%nat).
Proof.
  intros Hraised. cbv zeta.
  destruct (main_write_cases fieldnames companies)
    as [(Hall & Hfile & _) | (b & bad & rest & _ & _ & _ & _ & Hr)];
    [| congruence].
  rewrite Hfile, main_updated_count.
  assert (changed_lines fieldnames companies
            ((Py.lit <$> fieldnames)
             :: (fields_of fieldnames <$> (merged_row <$> companies)))
          = length (filter eligible companies)) as Hchanged.
  { apply changed_lines_written. by apply completed_fields. }
  split; [cbn [length]; by rewrite !length_fmap |].
  split; [exact Hchanged |].
  rewrite skipn_cons, drop_0. split.
  - intros Heq. rewrite <- Hchanged, Heq. apply changed_lines_none.
  - intros H0. by rewrite (fmap_merged_row_id _ H0).
Qed.

Lemma main_changed_lines_witness :
  let rows :=
    [with_funding row_doe; with_funding row_nobody; with_funding row_real] in
  let run := main (Some twelve_columns) rows in
  length (file run) = 4%nat
  ∧ changed_lines twelve_columns rows (file run) = updated_count run
  ∧ (drop 1 (file run) = fields_of twelve_columns <$> rows
     ↔ updated_count run = 0%nat).
Proof.
  apply (main_changed_lines twelve_columns
           [with_funding row_doe; with_funding row_nobody;
            with_funding row_real]).
  vm_compute. reflexivity.
Defined.

(** X17: on the rows of a well-formed file (each row has the columns of the
    header and no other), [main] raises [ValueError] exactly when the header
    lacks one of the ten columns of the merge and some row is updated, and
    raises nothing exactly when the header has them all or no row is
    updated; on an empty file, where there is no header, it raises
    [TypeError] and leaves the file empty. *)
Theorem main_raises_iff
    (fieldnames : list string) (companies : list (gmap string (list N))) :
  Forall (λ c, dom c = list_to_set fieldnames) companies →
  let run := main (Some fieldnames) companies in
  (raised run = Some Py.ValueError
   ↔ ¬ merge_targets ⊆ list_to_set fieldnames ∧ Exists eligible companies)
  ∧ (raised run = None
     ↔ merge_targets ⊆ list_to_set fieldnames
       ∨ Forall (λ c, ¬ eligible c) companies)
  ∧ raised (main None companies) = Some Py.TypeError
  ∧ file (main None companies) = [].
Proof.
  intros Hrows. cbv zeta.
  assert (Forall (λ r, dom r ⊆ list_to_set fieldnames)
            (merged_row <$> companies)
          ↔ merge_targets ⊆ list_to_set fieldnames
            ∨ Forall (λ c, ¬ eligible c) companies) as Hok.
  { rewrite Forall_fmap. split.
    - intros Hall.
      destruct (decide (merge_targets ⊆ list_to_set fieldnames)) as [|Hn];
        [by left | right].
      rewrite Forall_forall in Hall, Hrows. apply Forall_forall.
      intros c Hc He. apply Hn. specialize (Hall c Hc). cbn in Hall.
      rewrite merged_row_dom, decide_True in Hall by exact He.
      intros k Hk. apply Hall, elem_of_union. by right.
    - intros Hcase. rewrite Forall_forall in Hrows. apply Forall_forall.
      intros c Hc. cbn. rewrite merged_row_dom.
      destruct (decide (eligible c)) as [He|He].
      + destruct Hcase as [Hcols | Hnone].
        * apply union_least; [by rewrite (Hrows c Hc) | exact Hcols].
        * rewrite Forall_forall in Hnone. by destruct (Hnone c Hc).
      + by rewrite (Hrows c Hc). }
  assert (raised (main (Some fieldnames) companies) = None
          ↔ merge_targets ⊆ list_to_set fieldnames
            ∨ Forall (λ c, ¬ eligible c) companies) as Hnone.
  { rewrite <- Hok.
    destruct (main_write_cases fieldnames companies)
      as [(Hall & _ & Hr) | (b & bad & rest & Heq & _ & Hbad & _ & Hr)].
    - by rewrite Hr.
    - rewrite Hr. split; [discriminate |]. intros Hall. exfalso. apply Hbad.
      rewrite Heq in Hall. apply Forall_app in Hall as [_ Hall].
      by apply Forall_cons in Hall as [? _]. }
  split; [| split; [exact Hnone | by split]].
  assert (raised (main (Some fieldnames) companies) = Some Py.ValueError
          ↔ raised (main (Some fieldnames) companies) ≠ None) as ->.
  { destruct (main_write_cases fieldnames companies)
      as [(_ & _ & Hr) | (b & bad & rest & _ & _ & _ & _ & Hr)];
      rewrite Hr; split; done. }
  rewrite Hnone. split.
  - intros Hn. split.
    + intros Hc. apply Hn. by left.
    + destruct (decide (Exists eligible companies)) as [|He]; [done |].
      exfalso. apply Hn. right. by apply Forall_Exists_neg.
  - intros [Hc He] [Hc'|Hall]; [done |].
    by apply Forall_Exists_neg in Hall.
Qed.

Lemma main_raises_iff_witness :
  let run := main (Some nine_columns) [row_real; row_doe; row_nobody] in
  (raised run = Some Py.ValueError
   ↔ ¬ merge_targets ⊆ list_to_set nine_columns
     ∧ Exists eligible [row_real; row_doe; row_nobody])
  ∧ (raised run = None
     ↔ merge_targets ⊆ list_to_set nine_columns
       ∨ Forall (λ c, ¬ eligible c) [row_real; row_doe; row_nobody])
  ∧ raised (main None [row_real; row_doe; row_nobody]) = Some Py.TypeError
  ∧ file (main None [row_real; row_doe; row_nobody]) = [].
Proof.
  apply (main_raises_iff nine_columns [row_real; row_doe; row_nobody]).
  apply (bool_decide_unpack _). vm_compute. exact I.
Defined.

(** X18: whatever the rows, the file a run leaves under a header is the
    header followed by the lines of the rows up to the first one that has,
    after the loop, a key outside the header, in the order read: all of them
    when nothing is raised, and then the summary is printed; only those
    before that row when [ValueError] is raised, and then the last thing
    printed is the line that announces the write. *)
Theorem main_file
    (fieldnames : list string) (companies : list (gmap string (list N))) :
  let run := main (Some fieldnames) companies in
  ∃ written rest,
    merged_row <$> companies = written ++ rest
    ∧ file run = (Py.lit <$> fieldnames) :: (fields_of fieldnames <$> written)
    ∧ Forall (λ r, dom r ⊆ list_to_set fieldnames) written
    ∧ match raised run with
      | None =>
          rest = []
          ∧ length (printed run) = (6 + updated_count run + 13)%nat
      | Some e =>
          e = Py.ValueError
          ∧ (∃ bad rest', rest = bad :: rest'
                          ∧ ¬ dom bad ⊆ list_to_set fieldnames)
          ∧ length (printed run) = (6 + updated_count run)%nat
      end.
Proof.
  cbv zeta.
  pose proof (main_printed (Some fieldnames) companies)
    as (before & Hbefore & Hprinted).
  destruct (main_write_cases fieldnames companies)
    as [(Hall & Hfile & Hr) | (b & bad & rest & Heq & Hb & Hbad & Hfile & Hr)].
  - exists (merged_row <$> companies), []. rewrite Hr in Hprinted |- *.
    rewrite app_nil_r. repeat split; try done.
    rewrite Hprinted, length_app, Hbefore. reflexivity.
  - exists b, (bad :: rest). rewrite Hr in Hprinted |- *.
    repeat split; try done.
    + by exists bad, rest.
    + by rewrite Hprinted, app_nil_r.
Qed.

(** ** More on the slug *)

Lemma extract_company_slug_search (s : list N) :
  GetFoundersFromYc.extract_company_slug (Some s) = Re.search s.
Proof. by destruct s. Qed.

Lemma marker_length : length (Py.lit "/companies/") = 11%nat.
Proof. reflexivity. Qed.

Lemma marker_head : Py.lit "/companies/" = Re.slash :: Py.lit "companies/".
Proof. reflexivity. Qed.

(** X11: a link made of a prefix, [/companies/], a non-empty slug without
    [/], and then nothing or a [/] and anything, gives back the slug,
    provided the prefix followed by [/companies/] alone gives no slug (there
    is no earlier [/companies/x] in the link). *)
Theorem extract_company_slug_round_trip (pre g rest : list N) :
  GetFoundersFromYc.extract_company_slug
    (Some (pre ++ Py.lit "/companies/")) = None →
  g ≠ [] →
  Re.slash ∉ g →
  rest = [] ∨ head rest = Some Re.slash →
  GetFoundersFromYc.extract_company_slug
    (Some (pre ++ Py.lit "/companies/" ++ g ++ rest)) = Some g.
Proof.
  rewrite !extract_company_slug_search. intros Hpre Hg Hns Hrest.
  apply search_Some. exists pre, rest. repeat split; try done.
  intros p c q Heq Hc.
  destruct (decide (length pre ≤ length p)%nat) as [|Hlt]; [done |].
  exfalso. apply Hc.
  apply (proj1 (search_None _) Hpre p c
           (take (length pre - length p - 1) q)).
  apply (f_equal (take (length (pre ++ Py.lit "/companies/")))) in Heq.
  rewrite (app_assoc pre), take_app_length in Heq. rewrite Heq.
  rewrite (app_assoc p), (cons_middle c), (app_assoc (p ++ _)).
  rewrite take_app_ge.
  - rewrite !length_app, marker_length. simpl.
    replace (length pre + 11 - (length p + 11 + 1))%nat
      with (length pre - length p - 1)%nat by lia.
    by rewrite <- !app_assoc.
  - rewrite !length_app, marker_length. simpl. lia.
Qed.

Lemma extract_company_slug_round_trip_witness :
  GetFoundersFromYc.extract_company_slug
    (Some (Py.lit "https://www.ycombinator.com" ++ Py.lit "/companies/"
             ++ Py.lit "doe" ++ Py.lit "/jobs"))
  = Some (Py.lit "doe").
Proof.
  apply (extract_company_slug_round_trip
           (Py.lit "https://www.ycombinator.com") (Py.lit "doe")
           (Py.lit "/jobs")).
  - vm_compute. reflexivity.
  - discriminate.
  - apply (bool_decide_unpack _). vm_compute. exact I.
  - right. reflexivity.
Defined.

(** X12: a slug is not itself a link with a slug: applying the function to
    its own result gives [None]. *)
Theorem extract_company_slug_of_slug (s g : list N) :
  GetFoundersFromYc.extract_company_slug (Some s) = Some g →
  GetFoundersFromYc.extract_company_slug (Some g) = None.
Proof.
  rewrite !extract_company_slug_search.
  intros (pre & rest & _ & _ & Hns & _)%search_Some.
  apply search_None. intros p c q Hg. exfalso. apply Hns.
  rewrite Hg, marker_head. apply elem_of_app. right. left.
Qed.

Lemma extract_company_slug_of_slug_witness :
  GetFoundersFromYc.extract_company_slug (Some (Py.lit "acme-inc")) = None.
Proof.
  apply (extract_company_slug_of_slug
           (Py.lit "https://example.com/companies/acme-inc")).
  vm_compute. reflexivity.
Defined.

(** ** The other scripts *)

Lemma filter_true_nil {A} (f : A → bool) (l : list A) :
  filter (λ x, f x = true) l = [] ↔ Forall (λ x, f x = false) l.
Proof.
  induction l as [|x l IH]; [by split |].
  rewrite filter_cons, Forall_cons. destruct (f x) eqn:Hx.
  - rewrite decide_True by done. split; [discriminate | by intros [? _]].
  - rewrite decide_False by done. rewrite IH. split; [by split | by intros [_ ?]].
Qed.

(** X13: run as a program, [get_founders_from_yc.py] and
    [extract_real_founders.py] end with [TypeError] exactly when no row is
    of pattern data, an empty file included: [main] has then returned
    [None], which the tuple assignment cannot unpack.  Otherwise they end
    normally and the last line printed gives the number of rows of pattern
    data. *)
Theorem scripts_raise_when_all_real
    (companies : list (gmap string (list N))) (fieldnames : list string) :
  let all_real :=
    Forall (λ c, GetFoundersFromYc.is_pattern_data c = false) companies in
  let n :=
    length (filter (λ c, GetFoundersFromYc.is_pattern_data c = true)
              companies) in
  let yc := GetFoundersFromYc.script companies fieldnames in
  let erf := ExtractRealFounders.script companies fieldnames in
  (yc.2 = Some Py.TypeError ↔ all_real)
  ∧ (erf.2 = Some Py.TypeError ↔ all_real)
  ∧ (yc.2 = None ∨ yc.2 = Some Py.TypeError)
  ∧ (erf.2 = None ∨ erf.2 = Some Py.TypeError)
  ∧ (yc.2 = None →
     last yc.1
     = Some (Py.nl :: Py.lit "✅ Ready to extract founder data for "
               ++ Py.str_of_nat n ++ Py.lit " companies"))
  ∧ (erf.2 = None →
     last erf.1
     = Some (Py.nl :: Py.lit "📋 Ready to process "
               ++ Py.str_of_nat n ++ Py.lit " companies")).
Proof.
  cbv zeta.
  unfold GetFoundersFromYc.script, ExtractRealFounders.script,
    GetFoundersFromYc.main, ExtractRealFounders.main.
  rewrite <- (filter_true_nil GetFoundersFromYc.is_pattern_data).
  change ExtractRealFounders.is_pattern_data
    with GetFoundersFromYc.is_pattern_data.
  destruct (filter (λ c, GetFoundersFromYc.is_pattern_data c = true) companies)
    as [|c l]; cbn [GetFoundersFromYc.returned GetFoundersFromYc.printed fst snd].
  - repeat split; auto; discriminate.
  - repeat split; auto; try discriminate; intros _; by rewrite last_snoc.
Qed.

(** X14: the three reporting scripts work on the same list: what
    [find_founders_batch.main] returns, what [get_founders_from_yc.main]
    returns first and hands to [json.dump], and what
    [extract_real_founders.main] returns first are the rows of pattern data
    of the file, in their order; the two [main] that return a tuple return
    the same one, with the rows and the header as they were read. *)
Theorem scripts_same_list
    (companies : list (gmap string (list N))) (fieldnames : list string) :
  let needing := FindFoundersBatch.get_companies_needing_founders companies in
  let yc := GetFoundersFromYc.main companies fieldnames in
  (FindFoundersBatch.main companies).2 = needing
  ∧ needing
    = filter (λ c, GetFoundersFromYc.is_pattern_data c = true) companies
  ∧ (ExtractRealFounders.main companies fieldnames).2
    = GetFoundersFromYc.returned yc
  ∧ match GetFoundersFromYc.returned yc with
    | Some (pattern_companies, all_companies, _, names) =>
        pattern_companies = needing ∧ pattern_companies ≠ []
        ∧ all_companies = companies ∧ names = fieldnames
        ∧ GetFoundersFromYc.dumped yc = Some needing
    | None => needing = [] ∧ GetFoundersFromYc.dumped yc = None
    end.
Proof.
  cbv zeta. rewrite get_companies_needing_founders_spec.
  unfold FindFoundersBatch.main, GetFoundersFromYc.main,
    ExtractRealFounders.main.
  rewrite get_companies_needing_founders_spec.
  change ExtractRealFounders.is_pattern_data
    with GetFoundersFromYc.is_pattern_data.
  change is_pattern_data with GetFoundersFromYc.is_pattern_data.
  unfold ExtractRealFounders.input_file, GetFoundersFromYc.input_file.
  destruct (filter (λ c, GetFoundersFromYc.is_pattern_data c = true) companies)
    as [|c l];
    cbn [GetFoundersFromYc.returned GetFoundersFromYc.dumped fst snd].
  - repeat split.
  - repeat split. discriminate.
Qed.

(** X15: the three numbers that [get_founders_from_yc.main] and
    [extract_real_founders.main] print first fit together: the rows found
    are the rows of real data plus the rows of pattern data. *)
Theorem printed_counts_add_up
    (companies : list (gmap string (list N))) (fieldnames : list string) :
  let real :=
    length (filter (λ c, GetFoundersFromYc.is_pattern_data c = false)
              companies) in
  let pattern :=
    length (filter (λ c, GetFoundersFromYc.is_pattern_data c = true)
              companies) in
  let found :=
    Py.lit "   Found " ++ Py.str_of_nat (real + pattern)
      ++ Py.lit " companies" in
  let real_line := Py.lit "   ✅ Real data: " ++ Py.str_of_nat real in
  let pattern_line := Py.lit "   🤖 Pattern data: " ++ Py.str_of_nat pattern in
  let yc := GetFoundersFromYc.printed (GetFoundersFromYc.main companies fieldnames) in
  let erf := (ExtractRealFounders.main companies fieldnames).1 in
  yc !! 4%nat = Some found ∧ yc !! 6%nat = Some real_line
  ∧ yc !! 7%nat = Some pattern_line
  ∧ erf !! 4%nat = Some found ∧ erf !! 6%nat = Some real_line
  ∧ erf !! 7%nat = Some pattern_line.
Proof.
  cbv zeta. rewrite Nat.add_comm, filter_bool_split.
  unfold GetFoundersFromYc.main, ExtractRealFounders.main.
  change ExtractRealFounders.is_pattern_data
    with GetFoundersFromYc.is_pattern_data.
  destruct (filter (λ c, GetFoundersFromYc.is_pattern_data c = true) companies)
    as [|c l]; cbn [GetFoundersFromYc.printed fst]; repeat split.
Qed.

(** The turns of the loop of [get_founders_from_yc.main] from index [idx]
    on: the rows up to the one of index 10, then the closing line if that
    row exists. *)
Lemma listing_from (n idx : nat) (pattern_companies : list (gmap string (list N))) :
  (idx ≤ 10)%nat →
  GetFoundersFromYc.listing n idx pattern_companies
  = imap (λ i company,
            Py.str_of_nat (idx + i) ++ Py.lit ". "
              ++ Py.get company "Company_Name" [] ++ Py.lit ": "
              ++ Py.get company "YC_Link" [])
      (take (11 - idx) pattern_companies)
    ++ (if (11 - idx <=? length pattern_companies)%nat
        then [Py.lit "... and " ++ Py.str_of_nat (n - 10) ++ Py.lit " more"]
        else []).
Proof.
  revert idx. induction pattern_companies as [|company rest IH]; intros idx Hidx.
  - cbn [GetFoundersFromYc.listing]. rewrite take_nil. cbn [imap app length].
    destruct (11 - idx <=? 0)%nat eqn:E; [| reflexivity].
    apply Nat.leb_le in E. lia.
  - cbn [GetFoundersFromYc.listing].
    destruct (10 <=? idx)%nat eqn:E.
    + apply Nat.leb_le in E. assert (idx = 10%nat) as -> by lia.
      cbn. by rewrite take_0.
    + apply Nat.leb_gt in E. rewrite IH by lia.
      replace (11 - idx)%nat with (S (11 - S idx)) by lia.
      rewrite firstn_cons, imap_cons. cbn [app length].
      rewrite Nat.add_0_r. f_equal. f_equal.
      apply imap_ext. intros i x _. cbn [compose]. by rewrite Nat.add_succ_r.
Qed.

(** X16: [get_founders_from_yc.main] lists the first ten rows of pattern
    data, numbered from 1, each with its company name and link, and closes
    with the line ["... and n-10 more"] as soon as there are ten rows, so
    also with ["... and 0 more"] when there are exactly ten;
    [extract_real_founders.main] lists the same rows and prints its closing
    line only when there are more than ten. *)
Theorem listing_first_ten (pattern_companies : list (gmap string (list N))) :
  let n := length pattern_companies in
  GetFoundersFromYc.listing n 1 pattern_companies
  = imap (λ i company,
            Py.str_of_nat (S i) ++ Py.lit ". "
              ++ Py.get company "Company_Name" [] ++ Py.lit ": "
              ++ Py.get company "YC_Link" [])
      (take 10 pattern_companies)
    ++ (if (10 <=? n)%nat
        then [Py.lit "... and " ++ Py.str_of_nat (n - 10) ++ Py.lit " more"]
        else [])
  ∧ length (GetFoundersFromYc.listing n 1 pattern_companies)
    = (if (10 <=? n)%nat then 11%nat else n)
  ∧ length (ExtractRealFounders.listing pattern_companies)
    = (if (10 <? n)%nat then 11%nat else n).
Proof.
  cbv zeta. rewrite listing_from by lia. cbn [Nat.sub].
  split; [reflexivity |]. split.
  - rewrite length_app, length_imap, length_take.
    destruct (10 <=? length pattern_companies)%nat eqn:E; cbn [length].
    + apply Nat.leb_le in E. lia.
    + apply Nat.leb_gt in E. lia.
  - unfold ExtractRealFounders.listing.
    rewrite length_app, length_imap, length_take.
    destruct (10 <? length pattern_companies)%nat eqn:E; cbn [length].
    + apply Nat.ltb_lt in E. lia.
    + apply Nat.ltb_ge in E. lia.
Qed.

(** ** The batch driver on sample rows *)

Example main_on_twelve_columns :
  let run :=
    main (Some twelve_columns)
      [with_funding row_real; with_funding row_doe] in
  raised run = None
  ∧ file run
    = [ Py.lit <$> twelve_columns;
        fields_of twelve_columns (with_funding row_real);
        [ Py.lit "Doe"; Py.lit "https://www.ycombinator.com/companies/doe";
          Py.lit "Adrian"; Py.lit "Barbir"; Py.lit "founders@doe.so";
          Py.lit "linkedin.com/in/adrianbarbir"; Py.lit "doe.so"; Py.lit "";
          Py.lit "Seed"; Py.lit ""; Py.lit "Summer 2025"; REAL_marker ] ]
  ∧ printed run !! 5%nat = Some (updated_line (Py.lit "Doe"))
  ∧ length (printed run) = 20%nat.
Proof. cbv zeta. repeat split; vm_compute; reflexivity. Qed.

Example main_on_header_only :
  let run := main (Some nine_columns) [] in
  raised run = None ∧ file run = [Py.lit <$> nine_columns]
  ∧ (total run, updated_count run, pattern_count run, real_count run)
    = (0%nat, 0%nat, 0%nat, 0%nat).
Proof. cbv zeta. repeat split; vm_compute; reflexivity. Qed.

(** ** The other scripts on sample rows *)

Example listing_of_ten :
  last (GetFoundersFromYc.listing 10 1 (replicate 10 row_doe))
  = Some (Py.lit "... and 0 more")
  ∧ length (ExtractRealFounders.listing (replicate 10 row_doe)) = 10%nat.
Proof. split; vm_compute; reflexivity. Qed.

Example listing_first_line :
  GetFoundersFromYc.listing 2 1 [row_doe; row_nobody] !! 0%nat
  = Some (Py.lit "1. Doe: https://www.ycombinator.com/companies/doe").
Proof. vm_compute. reflexivity. Qed.

Example listing_line_without_name :
  FindFoundersBatch.listing_line 11 (delete "Company_Name" row_doe)
  = Py.lit "12. None - https://www.ycombinator.com/companies/doe".
Proof. vm_compute. reflexivity. Qed.

Example script_on_real_rows :
  (GetFoundersFromYc.script [row_real] ["Company_Name"]).2
  = Some Py.TypeError
  ∧ (GetFoundersFromYc.script [row_real; row_doe] ["Company_Name"]).2 = None.
Proof. split; vm_compute; reflexivity. Qed.

Example main_prints :
  length (GetFoundersFromYc.printed
            (GetFoundersFromYc.main [row_doe; row_nobody; row_real] []))
  = 15%nat
  ∧ (FindFoundersBatch.main [row_doe; row_nobody; row_real]).1 !! 0%nat
    = Some (Py.lit "Companies needing founder data: 2").
Proof. split; vm_compute; reflexivity. Qed.
